(** * PytorchOCR recognition backbones

    Shallow embedding of
      - torchocr/networks/backbones/RecMobileNetV3.py
      - torchocr/networks/backbones/rec_resnet_vd.py

    Conventions.
    - Python ints are integers ([Z]).  The constructors compute the channel
      widths on exact rationals ([Q]); [Binary64] is the divisibility
      rounding on binary64 numbers, as the interpreter evaluates it, and
      the two are compared on the widths of the supported configurations.
      What is stated of [make_divisible] itself is stated of [Binary64].
      [int(x)] truncates toward zero and [//] is floor division.
    - The message of an [assert] is kept as its format string.
    - The layers of the tensor toolkit ([nn.Conv2d], [nn.BatchNorm2d], the
      pools, [nn.ReLU]) are represented by their hyper-parameters; what they
      compute on a tensor is given by a [Runtime], over which every
      statement about a forward pass is quantified.  The operations of a
      [Runtime] always return: statements over it are about the inputs the
      toolkit accepts.  [Partial] gives the forward passes of
      rec_resnet_vd.py over operations that may raise.
    - A constructor ([__init__]) runs in a state-and-exception monad whose
      state is the list of module classes whose initialisation has begun, in
      order; an import ([load_3rd_state_dict]) runs in the same monad over
      the parameters of the unit it writes to. *)

From Stdlib Require Import ZArith QArith Qround Qminmax Lia Lqa List Bool.
From Stdlib Require Import PrimFloat FloatOps SpecFloat.
From stdpp Require Import gmap strings pretty.
Import ListNotations.
Local Open Scope Z_scope.
#[local] Set Warnings "-inexact-float".

(** ** Python: exceptions, results, the state-and-exception monad *)

Module Py.

Inductive exn : Type :=
| NotImplementedError (msg : string)
| AssertionError (msg : string)
| KeyError (key : string)
| IndexError (msg : string)
| ZeroDivisionError (msg : string)
| ValueError (msg : string)
| OverflowError (msg : string).

Inductive result (A : Type) : Type :=
| Ok (a : A)
| Raise (e : exn).
Arguments Ok {A} a.
Arguments Raise {A} e.

(** Pure code that may raise. *)
Definition rbind {A B} (r : result A) (k : A -> result B) : result B :=
  match r with
  | Ok a => k a
  | Raise e => Raise e
  end.

(** Code that may raise and that updates a store of type [S]; what was
    written before an exception is raised stays written. *)
Definition M (S A : Type) : Type := S -> result A * S.

Definition ret {S A} (a : A) : M S A := fun s => (Ok a, s).

Definition raise {S A} (e : exn) : M S A := fun s => (Raise e, s).

Definition bind {S A B} (m : M S A) (k : A -> M S B) : M S B :=
  fun s =>
    match m s with
    | (Ok a, s') => k a s'
    | (Raise e, s') => (Raise e, s')
    end.

Definition lift {S A} (r : result A) : M S A := fun s => (r, s).

(** [for x in xs: acc = body(acc, x)] *)
Fixpoint for_each {S A B} (xs : list A) (acc : B) (body : B -> A -> M S B)
  : M S B :=
  match xs with
  | [] => ret acc
  | x :: xs' => bind (body acc x) (fun acc' => for_each xs' acc' body)
  end.

(** [range(n)] *)
Definition range (n : Z) : list Z := map Z.of_nat (seq 0 (Z.to_nat n)).

(** [len(l)] *)
Definition len {A} (l : list A) : Z := Z.of_nat (length l).

(** [int(x)] on a number: truncation toward zero. *)
Definition int (x : Q) : Z := Z.quot (Qnum x) (Z.pos (Qden x)).

(** [a < b] and [a > b] on numbers. *)
Definition ltb (a b : Q) : bool := negb (Qle_bool b a).
Definition gtb (a b : Q) : bool := ltb b a.

(** [d[k]] on a dict. *)
Definition getitem {S V} (d : gmap string V) (k : string) : M S V :=
  match d !! k with
  | Some v => ret v
  | None => raise (KeyError k)
  end.

(** [l[i]] on a list; a negative [i] counts from the end. *)
Definition index {A} (l : list A) (i : Z) : result A :=
  let j := if i <? 0 then i + len l else i in
  match (if j <? 0 then None else l !! Z.to_nat j) with
  | Some a => Ok a
  | None => Raise (IndexError "list index out of range")
  end.

End Py.

Import Py.

Declare Scope py_scope.
Delimit Scope py_scope with py.
Notation "x <- m ;; k" := (bind m (fun x => k))
  (at level 100, m at next level, right associativity) : py_scope.
Notation "m ;; k" := (bind m (fun _ => k))
  (at level 100, right associativity) : py_scope.
Local Open Scope py_scope.

(** ** The tensor toolkit: layer descriptions and their runtime *)

Module nn.

(** A stride is an int or a (vertical, horizontal) tuple. *)
Inductive stride_t : Type :=
| SInt (s : Z)
| SPair (v h : Z).

(** Python's [stride != 1]: a tuple is never equal to the int 1. *)
Definition stride_ne_1 (s : stride_t) : bool :=
  match s with
  | SInt n => negb (n =? 1)
  | SPair _ _ => true
  end.

Record Conv2d : Type := mkConv2d {
  c_in_channels : Z;
  c_out_channels : Z;
  c_kernel_size : Z;
  c_stride : stride_t;
  c_padding : Z;
  c_groups : Z;
  c_bias : bool
}.

Record BatchNorm2d : Type := mkBatchNorm2d { num_features : Z }.

Record MaxPool2d : Type := mkMaxPool2d {
  mp_kernel_size : Z; mp_stride : Z; mp_padding : Z
}.

Record AvgPool2d : Type := mkAvgPool2d {
  ap_kernel_size : stride_t; ap_stride : stride_t; ap_padding : Z;
  ap_ceil_mode : bool
}.

Record AdaptiveAvgPool2d : Type := mkAdaptiveAvgPool2d { output_size : Z }.

Inductive ReLU : Type := mkReLU.

(** The classes whose initialisation has begun, oldest first. *)
Definition Ctor (A : Type) : Type := M (list string) A.

(** [super().__init__()] of the class named [cls]. *)
Definition enter (cls : string) : Ctor unit :=
  fun log => (Ok tt, log ++ [cls]).

Definition new_Conv2d (i o k : Z) (s : stride_t) (p g : Z) (b : bool)
  : Ctor Conv2d :=
  enter "Conv2d" ;; ret (mkConv2d i o k s p g b).

Definition new_BatchNorm2d (n : Z) : Ctor BatchNorm2d :=
  enter "BatchNorm2d" ;; ret (mkBatchNorm2d n).

Definition new_MaxPool2d (k s p : Z) : Ctor MaxPool2d :=
  enter "MaxPool2d" ;; ret (mkMaxPool2d k s p).

Definition new_AvgPool2d (k s : stride_t) (p : Z) (c : bool) : Ctor AvgPool2d :=
  enter "AvgPool2d" ;; ret (mkAvgPool2d k s p c).

Definition new_AdaptiveAvgPool2d (n : Z) : Ctor AdaptiveAvgPool2d :=
  enter "AdaptiveAvgPool2d" ;; ret (mkAdaptiveAvgPool2d n).

Definition new_ReLU : Ctor ReLU := enter "ReLU" ;; ret mkReLU.

(** What the toolkit computes.  [pointwise f] applies a function to every
    element; [tadd] and [tmul] are the elementwise [+] and [*] of tensors,
    which are commutative as the number operations are. *)
Class Runtime : Type := {
  Tensor : Type;
  pointwise : (Q -> Q) -> Tensor -> Tensor;
  tadd : Tensor -> Tensor -> Tensor;
  tmul : Tensor -> Tensor -> Tensor;
  Conv2d_forward : Conv2d -> Tensor -> Tensor;
  BatchNorm2d_forward : BatchNorm2d -> Tensor -> Tensor;
  MaxPool2d_forward : MaxPool2d -> Tensor -> Tensor;
  AvgPool2d_forward : AvgPool2d -> Tensor -> Tensor;
  AdaptiveAvgPool2d_forward : AdaptiveAvgPool2d -> Tensor -> Tensor;
  tadd_comm : forall x y : Tensor, tadd x y = tadd y x
}.

(** [F.relu], [F.relu6], [F.threshold] on one element. *)
Definition relu (x : Q) : Q := if ltb 0 x then x else 0%Q.

Definition relu6 (x : Q) : Q := Qmin (Qmax 0 x) 6.

Definition threshold (x th value : Q) : Q := if gtb x th then x else value.

Definition ReLU_forward `{Runtime} (_ : ReLU) (x : Tensor) : Tensor :=
  pointwise relu x.

(** [nn.Module.forward] as inherited by a class that does not define it. *)
Definition Module_forward {T} (_ : T) : result T :=
  Raise (NotImplementedError "forward").

(** [module(x)]: the [forward] entry of the class's own methods, else the
    inherited one. *)
Definition call {Self T} (methods : list (string * (Self -> T -> T)))
    (self : Self) (x : T) : result T :=
  match find (fun m => String.eqb (fst m) "forward") methods with
  | Some m => Ok (snd m self x)
  | None => Module_forward x
  end.

(** Calling an [nn.Sequential] of blocks on [x]. *)
Fixpoint Sequential_forward {B T} (blk_call : B -> T -> result T)
    (blocks : list B) (x : T) : result T :=
  match blocks with
  | [] => Ok x
  | b :: bs => rbind (blk_call b x) (Sequential_forward blk_call bs)
  end.

End nn.

Import nn.

(** ** RecMobileNetV3.py *)

(** [class HSwish] *)
Module HSwish.

Inductive t : Type := mk.

Definition init : Ctor t := enter "HSwish" ;; ret mk.

(** [x * F.relu6(x + 3, inplace=True) / 6] on one element. *)
Definition elem (x : Q) : Q := (x * relu6 (x + 3) / 6)%Q.

Definition forward `{Runtime} (self : t) (x : Tensor) : Tensor :=
  pointwise elem x.

End HSwish.

(** [class HardSigmoid] *)
Module HardSigmoid.

Record t : Type := mk { slope : Q; offset : Q }.

(** [__init__(self, slope=.2, offset=.5)] *)
Definition init (slope offset : option Q) : Ctor t :=
  enter "HardSigmoid" ;;
  ret {| slope := default 0.2%Q slope; offset := default 0.5%Q offset |}.

(** [forward] on one element. *)
Definition elem (self : t) (x : Q) : Q :=
  let x := (slope self * x + offset self)%Q in
  let x := threshold (- x) (-1) (-1) in
  let x := threshold (- x) 0 0 in
  x.

Definition forward `{Runtime} (self : t) (x : Tensor) : Tensor :=
  pointwise (elem self) x.

(** The direct formulation: [clamp(v, lo, hi)]. *)
Definition clamp (v lo hi : Q) : Q :=
  if ltb v lo then lo else if gtb v hi then hi else v.

End HardSigmoid.

(** The [act] argument of the convolution units: ['relu'], ['hard_swish'],
    or [None] (as [option]). *)
Inductive act_name : Type := relu_ | hard_swish_.

(** [class ConvBNACT] *)
Module ConvBNACT.

Inductive activation : Type :=
| ActReLU (m : ReLU)
| ActHSwish (m : HSwish.t).

Record t : Type := mk {
  conv : Conv2d;
  bn : BatchNorm2d;
  act : option activation
}.

(** [__init__(self, in_channels, out_channels, kernel_size, stride=1,
    padding=0, groups=1, act=None)] *)
Definition init (in_channels out_channels kernel_size : Z) (stride : stride_t)
    (padding groups : Z) (act : option act_name) : Ctor t :=
  enter "ConvBNACT" ;;
  conv <- new_Conv2d in_channels out_channels kernel_size stride padding
            groups false ;;
  bn <- new_BatchNorm2d out_channels ;;
  act <- match act with
         | Some relu_ => (m <- new_ReLU ;; ret (Some (ActReLU m)))
         | Some hard_swish_ => (m <- HSwish.init ;; ret (Some (ActHSwish m)))
         | None => ret None
         end ;;
  ret (mk conv bn act).

Definition activation_forward `{Runtime} (a : activation) (x : Tensor)
  : Tensor :=
  match a with
  | ActReLU m => ReLU_forward m x
  | ActHSwish m => HSwish.forward m x
  end.

Definition forward `{Runtime} (self : t) (x : Tensor) : Tensor :=
  let x := Conv2d_forward (conv self) x in
  let x := BatchNorm2d_forward (bn self) x in
  match act self with
  | Some a => activation_forward a x
  | None => x
  end.

(** The parameters and running statistics of a unit, by their
    [state_dict] names [conv.weight], [bn.weight], [bn.bias],
    [bn.running_mean], [bn.running_var]. *)
Record params (T : Type) : Type := mkParams {
  conv_weight : T;
  bn_weight : T;
  bn_bias : T;
  bn_running_mean : T;
  bn_running_var : T
}.
Arguments mkParams {T}.

Section ForeignState.

(** [A] is the type of the arrays of the foreign checkpoint and [T] the
    type of tensors; [torch_Tensor] is the toolkit's conversion;
    [load_state_dict] is the unit's inherited [nn.Module.load_state_dict],
    the only operation that writes to the unit. *)
Context {A T : Type}.
Variable torch_Tensor : A -> T.
Variable load_state_dict : list (string * T) -> M (params T) unit.

Definition load_3rd_state_dict (_3rd_name : string) (_state : gmap string A)
    (_name_prefix : string) : M (params T) unit :=
  let to_load_state_dict : list (string * T) := [] in
  if String.eqb _3rd_name "paddle" then
    w <- getitem _state (_name_prefix +:+ "_weights") ;;
    let to_load_state_dict :=
      to_load_state_dict ++ [("conv.weight", torch_Tensor w)] in
    w <- getitem _state (_name_prefix +:+ "_bn_scale") ;;
    let to_load_state_dict :=
      to_load_state_dict ++ [("bn.weight", torch_Tensor w)] in
    w <- getitem _state (_name_prefix +:+ "_bn_offset") ;;
    let to_load_state_dict :=
      to_load_state_dict ++ [("bn.bias", torch_Tensor w)] in
    w <- getitem _state (_name_prefix +:+ "_bn_mean") ;;
    let to_load_state_dict :=
      to_load_state_dict ++ [("bn.running_mean", torch_Tensor w)] in
    w <- getitem _state (_name_prefix +:+ "_bn_variance") ;;
    let to_load_state_dict :=
      to_load_state_dict ++ [("bn.running_var", torch_Tensor w)] in
    load_state_dict to_load_state_dict
  else
    ret tt.

End ForeignState.

(** The five keys a unit with prefix [p] reads, in the order it reads
    them. *)
Definition required_keys (p : string) : list string :=
  [p +:+ "_weights"; p +:+ "_bn_scale"; p +:+ "_bn_offset";
   p +:+ "_bn_mean"; p +:+ "_bn_variance"].

End ConvBNACT.

(** [class SEBlock] *)
Module SEBlock.

Record t : Type := mk {
  pool : AdaptiveAvgPool2d;
  conv1 : Conv2d;
  relu1 : ReLU;
  conv2 : Conv2d;
  relu2 : HardSigmoid.t
}.

(** [__init__(self, in_channels, out_channels, ratio=4)] *)
Definition init (in_channels out_channels ratio : Z) : Ctor t :=
  enter "SEBlock" ;;
  num_mid_filter <-
    (if ratio =? 0
     then raise (ZeroDivisionError "integer division or modulo by zero")
     else ret (out_channels / ratio)) ;;
  pool <- new_AdaptiveAvgPool2d 1 ;;
  conv1 <- new_Conv2d in_channels num_mid_filter 1 (SInt 1) 0 1 true ;;
  relu1 <- new_ReLU ;;
  conv2 <- new_Conv2d num_mid_filter out_channels 1 (SInt 1) 0 1 true ;;
  relu2 <- HardSigmoid.init None None ;;
  ret (mk pool conv1 relu1 conv2 relu2).

Definition forward `{Runtime} (self : t) (x : Tensor) : Tensor :=
  let attn := AdaptiveAvgPool2d_forward (pool self) x in
  let attn := Conv2d_forward (conv1 self) attn in
  let attn := ReLU_forward (relu1 self) attn in
  let attn := Conv2d_forward (conv2 self) attn in
  let attn := HardSigmoid.forward (relu2 self) attn in
  tmul x attn.

End SEBlock.

(** [class ResidualUnit] *)
Module ResidualUnit.

Record t : Type := mk {
  conv0 : ConvBNACT.t;
  conv1 : ConvBNACT.t;
  se : option SEBlock.t;
  conv2 : ConvBNACT.t;
  not_add : bool
}.

(** [__init__(self, num_in_filter, num_mid_filter, num_out_filter, stride,
    kernel_size, act=None, use_se=False)] *)
Definition init (num_in_filter num_mid_filter num_out_filter : Z)
    (stride : stride_t) (kernel_size : Z) (act : option act_name)
    (use_se : bool) : Ctor t :=
  enter "ResidualUnit" ;;
  conv0 <- ConvBNACT.init num_in_filter num_mid_filter 1 (SInt 1) 0 1 act ;;
  conv1 <- ConvBNACT.init num_mid_filter num_mid_filter kernel_size stride
             ((kernel_size - 1) / 2) num_mid_filter act ;;
  se <- (if use_se
         then (s <- SEBlock.init num_mid_filter num_mid_filter 4 ;;
               ret (Some s))
         else ret None) ;;
  conv2 <- ConvBNACT.init num_mid_filter num_out_filter 1 (SInt 1) 0 1 None ;;
  let not_add :=
    negb (num_in_filter =? num_out_filter) || stride_ne_1 stride in
  ret (mk conv0 conv1 se conv2 not_add).

Definition forward `{Runtime} (self : t) (x : Tensor) : Tensor :=
  let y := ConvBNACT.forward (conv0 self) x in
  let y := ConvBNACT.forward (conv1 self) y in
  let y := match se self with
           | Some s => SEBlock.forward s y
           | None => y
           end in
  let y := ConvBNACT.forward (conv2 self) y in
  let y := if Bool.eqb (not_add self) false then tadd x y else y in
  y.

End ResidualUnit.

(** [class MobileNetV3] *)
Module MobileNetV3.

(** A row [[k, exp, c, se, nl, s]] of a configuration table. *)
Record layer_cfg : Type := row {
  k : Z; exp : Z; c : Z; se : bool; nl : act_name; s : stride_t
}.

Definition cfg_large : list layer_cfg := [
  row 3 16 16 false relu_ (SInt 1);
  row 3 64 24 false relu_ (SPair 2 1);
  row 3 72 24 false relu_ (SInt 1);
  row 5 72 40 true relu_ (SPair 2 1);
  row 5 120 40 true relu_ (SInt 1);
  row 5 120 40 true relu_ (SInt 1);
  row 3 240 80 false hard_swish_ (SInt 1);
  row 3 200 80 false hard_swish_ (SInt 1);
  row 3 184 80 false hard_swish_ (SInt 1);
  row 3 184 80 false hard_swish_ (SInt 1);
  row 3 480 112 true hard_swish_ (SInt 1);
  row 3 672 112 true hard_swish_ (SInt 1);
  row 5 672 160 true hard_swish_ (SPair 2 1);
  row 5 960 160 true hard_swish_ (SInt 1);
  row 5 960 160 true hard_swish_ (SInt 1)
].

Definition cfg_small : list layer_cfg := [
  row 3 16 16 true relu_ (SPair 2 1);
  row 3 72 24 false relu_ (SPair 2 1);
  row 3 88 24 false relu_ (SInt 1);
  row 5 96 40 true hard_swish_ (SPair 2 1);
  row 5 240 40 true hard_swish_ (SInt 1);
  row 5 240 40 true hard_swish_ (SInt 1);
  row 5 120 48 true hard_swish_ (SInt 1);
  row 5 144 48 true hard_swish_ (SInt 1);
  row 5 288 96 true hard_swish_ (SPair 2 1);
  row 5 576 96 true hard_swish_ (SInt 1);
  row 5 576 96 true hard_swish_ (SInt 1)
].

Definition supported_scale : list Q := [0.35; 0.5; 0.75; 1.0; 1.25]%Q.

(** [x in supported_scale]: some entry is [==] to [x]. *)
Definition in_supported_scale (x : Q) : bool :=
  existsb (Qeq_bool x) supported_scale.

(** [make_divisible(self, v, divisor=8, min_value=None)] *)
Definition make_divisible (v : Q) (divisor : Z) (min_value : option Z)
  : result Z :=
  let min_value := default divisor min_value in
  if divisor =? 0
  then Raise (ZeroDivisionError "integer division or modulo by zero")
  else
    let new_v :=
      Z.max min_value
            (int (v + inject_Z divisor / 2) / divisor * divisor) in
    let new_v :=
      if ltb (inject_Z new_v) (0.9 * v) then new_v + divisor else new_v in
    Ok new_v.

(** The keyword arguments the constructor reads. *)
Record kwargs : Type := mkKwargs {
  kw_scale : option Q;
  kw_model_name : option string
}.

Record t : Type := mk {
  scale : Q;
  inplanes : Z;
  cfg : list layer_cfg;
  cls_ch_squeeze : Z;
  cls_ch_expand : Z;
  conv1 : ConvBNACT.t;
  block_list : list ResidualUnit.t;
  conv2 : ConvBNACT.t;
  pool : MaxPool2d;
  out_channels : Z
}.

(** [__init__(self, in_channels, **kwargs)] *)
Definition init (in_channels : Z) (kw : kwargs) : Ctor t :=
  enter "MobileNetV3" ;;
  let self_scale := default 0.5%Q (kw_scale kw) in
  let model_name := default "large" (kw_model_name kw) in
  let self_inplanes := 16 in
  table <-
    (if String.eqb model_name "large" then ret (cfg_large, 960, 1280)
     else if String.eqb model_name "small" then ret (cfg_small, 576, 1280)
     else raise (NotImplementedError
                   ("mode[" +:+ model_name +:+ "_model] is not implemented!"))) ;;
  let '(self_cfg, self_cls_ch_squeeze, self_cls_ch_expand) := table in
  if negb (in_supported_scale self_scale)
  then raise (AssertionError "supported scale are {} but input scale is {}")
  else
    let scale := self_scale in
    let inplanes := self_inplanes in
    let cfg := self_cfg in
    let cls_ch_squeeze := self_cls_ch_squeeze in
    let cls_ch_expand := self_cls_ch_expand in
    o <- lift (make_divisible (inject_Z inplanes * scale) 8 None) ;;
    conv1 <- ConvBNACT.init in_channels o 3 (SInt 2) 1 1 (Some hard_swish_) ;;
    inplanes <- lift (make_divisible (inject_Z inplanes * scale) 8 None) ;;
    loop <- for_each cfg ([], inplanes)
      (fun '(block_list, inplanes) layer_cfg =>
         mid <- lift (make_divisible (scale * inject_Z (exp layer_cfg)) 8 None) ;;
         out <- lift (make_divisible (scale * inject_Z (c layer_cfg)) 8 None) ;;
         block <- ResidualUnit.init inplanes mid out (s layer_cfg)
                    (k layer_cfg) (Some (nl layer_cfg)) (se layer_cfg) ;;
         inplanes <-
           lift (make_divisible (scale * inject_Z (c layer_cfg)) 8 None) ;;
         ret (block_list ++ [block], inplanes)) ;;
    let '(block_list, inplanes) := loop in
    enter "Sequential" ;;
    o <- lift (make_divisible (scale * inject_Z cls_ch_squeeze) 8 None) ;;
    conv2 <- ConvBNACT.init inplanes o 1 (SInt 1) 0 1 (Some hard_swish_) ;;
    pool <- new_MaxPool2d 2 2 0 ;;
    out_channels <-
      lift (make_divisible (scale * inject_Z cls_ch_squeeze) 8 None) ;;
    ret (mk self_scale self_inplanes self_cfg self_cls_ch_squeeze
            self_cls_ch_expand conv1 block_list conv2 pool out_channels).

Definition forward `{Runtime} (self : t) (x : Tensor) : Tensor :=
  let x := ConvBNACT.forward (conv1 self) x in
  let x := fold_left (fun x b => ResidualUnit.forward b x) (block_list self) x in
  let x := ConvBNACT.forward (conv2 self) x in
  let x := MaxPool2d_forward (pool self) x in
  x.

End MobileNetV3.

(** ** rec_resnet_vd.py

    [ConvBNACT] is the class above, which this file imports. *)

(** [class ConvBNACTNew] *)
Module ConvBNACTNew.

Record t : Type := mk {
  pool : AvgPool2d;
  conv : Conv2d;
  bn : BatchNorm2d;
  act : option ReLU
}.

(** [__init__(self, in_channels, out_channels, kernel_size, stride=1,
    groups=1, act=None, name=None)] *)
Definition init (in_channels out_channels kernel_size : Z) (stride : stride_t)
    (groups : Z) (act : option act_name) : Ctor t :=
  enter "ConvBNACTNew" ;;
  pool <- new_AvgPool2d stride stride 0 true ;;
  conv <- new_Conv2d in_channels out_channels kernel_size (SInt 1)
            ((kernel_size - 1) / 2) groups false ;;
  bn <- new_BatchNorm2d out_channels ;;
  act <- match act with
         | None => ret None
         | Some _ => (m <- new_ReLU ;; ret (Some m))
         end ;;
  ret (mk pool conv bn act).

Definition forward `{Runtime} (self : t) (x : Tensor) : Tensor :=
  let x := AvgPool2d_forward (pool self) x in
  let x := Conv2d_forward (conv self) x in
  let x := BatchNorm2d_forward (bn self) x in
  match act self with
  | Some a => ReLU_forward a x
  | None => x
  end.

End ConvBNACTNew.

(** [class ShurtCut] *)
Module ShurtCut.

(** [self.conv] is a [ConvBNACT], a [ConvBNACTNew], or [None]. *)
Inductive conv_t : Type :=
| Direct (m : ConvBNACT.t)
| Pooled (m : ConvBNACTNew.t).

Record t : Type := mk { conv : option conv_t }.

(** [__init__(self, in_channels, out_channels, stride, if_first=False)];
    [stride] is a tuple, of which the test reads [stride[0]]. *)
Definition init (in_channels out_channels : Z) (stride : Z * Z)
    (if_first : bool) : Ctor t :=
  enter "ShurtCut" ;;
  let stride_ := SPair (fst stride) (snd stride) in
  if negb (in_channels =? out_channels) || negb (fst stride =? 1) then
    if if_first then
      m <- ConvBNACT.init in_channels out_channels 1 stride_ 0 1 None ;;
      ret (mk (Some (Direct m)))
    else
      m <- ConvBNACTNew.init in_channels out_channels 1 stride_ 1 None ;;
      ret (mk (Some (Pooled m)))
  else if if_first then
    m <- ConvBNACT.init in_channels out_channels 1 stride_ 0 1 None ;;
    ret (mk (Some (Direct m)))
  else
    ret (mk None).

Definition forward `{Runtime} (self : t) (x : Tensor) : Tensor :=
  match conv self with
  | Some (Direct m) => ConvBNACT.forward m x
  | Some (Pooled m) => ConvBNACTNew.forward m x
  | None => x
  end.

End ShurtCut.

(** [class BasicBlock] *)
Module BasicBlock.

Record t : Type := mk {
  conv0 : ConvBNACT.t;
  conv1 : ConvBNACT.t;
  shortcut : ShurtCut.t;
  relu : ReLU
}.

Definition init (in_channels out_channels : Z) (stride : Z * Z)
    (if_first : bool) : Ctor t :=
  enter "BasicBlock" ;;
  conv0 <- ConvBNACT.init in_channels out_channels 3
             (SPair (fst stride) (snd stride)) 1 1 (Some relu_) ;;
  conv1 <- ConvBNACT.init out_channels out_channels 3 (SInt 1) 1 1 None ;;
  shortcut <- ShurtCut.init in_channels out_channels stride if_first ;;
  relu <- new_ReLU ;;
  ret (mk conv0 conv1 shortcut relu).

Definition forward `{Runtime} (self : t) (x : Tensor) : Tensor :=
  let y := ConvBNACT.forward (conv0 self) x in
  let y := ConvBNACT.forward (conv1 self) y in
  let y := tadd y (ShurtCut.forward (shortcut self) x) in
  ReLU_forward (relu self) y.

(** The methods of the class that take [(self, x)]. *)
Definition methods `{Runtime} : list (string * (t -> Tensor -> Tensor)) :=
  [("forward", forward)].

End BasicBlock.

(** [class BottleneckBlock] *)
Module BottleneckBlock.

Record t : Type := mk {
  conv0 : ConvBNACT.t;
  conv1 : ConvBNACT.t;
  conv2 : ConvBNACT.t;
  shortcut : ShurtCut.t;
  relu : ReLU
}.

Definition init (in_channels out_channels : Z) (stride : Z * Z)
    (if_first : bool) : Ctor t :=
  enter "BottleneckBlock" ;;
  conv0 <- ConvBNACT.init in_channels out_channels 1 (SInt 1) 0 1
             (Some relu_) ;;
  conv1 <- ConvBNACT.init out_channels out_channels 3
             (SPair (fst stride) (snd stride)) 1 1 (Some relu_) ;;
  conv2 <- ConvBNACT.init out_channels (out_channels * 4) 1 (SInt 1) 1 1
             None ;;
  shortcut <- ShurtCut.init in_channels (out_channels * 4) stride if_first ;;
  relu <- new_ReLU ;;
  ret (mk conv0 conv1 conv2 shortcut relu).

(** The method the class defines under the name [forwart]. *)
Definition forwart `{Runtime} (self : t) (x : Tensor) : Tensor :=
  let y := ConvBNACT.forward (conv0 self) x in
  let y := ConvBNACT.forward (conv1 self) y in
  let y := ConvBNACT.forward (conv2 self) y in
  let y := tadd y (ShurtCut.forward (shortcut self) x) in
  ReLU_forward (relu self) y.

(** The methods of the class that take [(self, x)]. *)
Definition methods `{Runtime} : list (string * (t -> Tensor -> Tensor)) :=
  [("forwart", forwart)].

End BottleneckBlock.

(** [class ResNet] *)
Module ResNet.

Inductive block_class : Type := BasicBlock_ | BottleneckBlock_.

Inductive block : Type :=
| Basic (b : BasicBlock.t)
| Bottleneck (b : BottleneckBlock.t).

(** [block_class(in_channels=..., out_channels=..., stride=...,
    if_first=...)] *)
Definition new_block (cls : block_class) (in_channels out_channels : Z)
    (stride : Z * Z) (if_first : bool) : Ctor block :=
  match cls with
  | BasicBlock_ =>
      b <- BasicBlock.init in_channels out_channels stride if_first ;;
      ret (Basic b)
  | BottleneckBlock_ =>
      b <- BottleneckBlock.init in_channels out_channels stride if_first ;;
      ret (Bottleneck b)
  end.

(** Calling a block on [x]. *)
Definition block_call `{Runtime} (b : block) (x : Tensor) : result Tensor :=
  match b with
  | Basic b => call BasicBlock.methods b x
  | Bottleneck b => call BottleneckBlock.methods b x
  end.

(** The dict [supported_layers]: [layers] to [('depth', 'block_class')]. *)
Definition supported_layers : gmap Z (list Z * block_class) :=
  list_to_map [
    (18, ([2; 2; 2; 2], BasicBlock_));
    (34, ([3; 4; 6; 3], BasicBlock_));
    (50, ([3; 4; 6; 3], BottleneckBlock_));
    (101, ([3; 4; 23; 3], BottleneckBlock_));
    (152, ([3; 8; 36; 3], BottleneckBlock_));
    (200, ([3; 12; 48; 3], BottleneckBlock_))
  ].

Record t : Type := mk {
  is_3x3 : bool;
  conv1 : list ConvBNACT.t;
  pool1 : MaxPool2d;
  stages : list (list block);
  out_channels : Z;
  out : MaxPool2d
}.

(** [__init__(self, in_channels, layers, **kwargs)]; no keyword argument is
    read.  The [assert] and the two lookups [supported_layers[layers]] that
    follow it are one [match].  [conv1] is the list of the units of the
    stem, one unit when [is_3x3] is false. *)
Definition init (in_channels layers : Z) : Ctor t :=
  enter "ResNet" ;;
  let self_is_3x3 := true in
  match supported_layers !! layers with
  | None =>
      raise (AssertionError "supported layers are {} but input layer is {}")
  | Some entry =>
      let depth := fst entry in
      let block_class := snd entry in
      let is_3x3 := self_is_3x3 in
      let num_filters := [64; 128; 256; 512] in
      conv1 <-
        (if Bool.eqb is_3x3 false then
           a <- ConvBNACT.init in_channels 64 7 (SInt 1) 3 1 (Some relu_) ;;
           ret [a]
         else
           a <- ConvBNACT.init in_channels 32 3 (SInt 1) 1 1 (Some relu_) ;;
           b <- ConvBNACT.init 32 32 3 (SInt 1) 1 1 (Some relu_) ;;
           c <- ConvBNACT.init 32 64 3 (SInt 1) 1 1 (Some relu_) ;;
           enter "Sequential" ;;
           ret [a; b; c]) ;;
      pool1 <- new_MaxPool2d 3 2 1 ;;
      enter "ModuleList" ;;
      let in_ch := 64 in
      outer <- for_each (range (len depth)) ([], in_ch)
        (fun '(stages, in_ch) block =>
           n <- lift (index depth block) ;;
           inner <- for_each (range n) ([], in_ch)
             (fun '(block_list, in_ch) i =>
                let stride :=
                  if (i =? 0) && negb (block =? 0) then (2, 1) else (1, 1) in
                f <- lift (index num_filters block) ;;
                b <- new_block block_class in_ch f stride
                       ((block =? i) && (i =? 0)) ;;
                in_ch <- lift (index num_filters block) ;;
                ret (block_list ++ [b], in_ch)) ;;
           let '(block_list, in_ch) := inner in
           enter "Sequential" ;;
           ret (stages ++ [block_list], in_ch)) ;;
      let '(stages, in_ch) := outer in
      let out_channels := in_ch in
      out <- new_MaxPool2d 2 2 0 ;;
      ret (mk self_is_3x3 conv1 pool1 stages out_channels out)
  end.

Definition forward `{Runtime} (self : t) (x : Tensor) : result Tensor :=
  let x := fold_left (fun x m => ConvBNACT.forward m x) (conv1 self) x in
  let x := MaxPool2d_forward (pool1 self) x in
  rbind (fold_left (fun r stage => rbind r (Sequential_forward block_call stage))
                   (stages self) (Ok x))
        (fun x => Ok (MaxPool2d_forward (out self) x)).

End ResNet.

(** ** [make_divisible] on binary64 numbers

    The call [make_divisible(v)] of the source, that is with [divisor=8]
    and [min_value=None], when [v] is a float: the arithmetic is that of
    IEEE 754 binary64, [int] raises on NaN and on the infinities, and an
    int is compared with a float by value. *)

Module Binary64.

(** [int(x)] on a float. *)
Definition int (x : float) : result Z :=
  match Prim2SF x with
  | S754_zero _ => Ok 0
  | S754_finite s m e =>
      let a := if 0 <=? e then Z.pos m * 2 ^ e else Z.pos m / 2 ^ (- e) in
      Ok (if s then - a else a)
  | S754_infinity _ =>
      Raise (OverflowError "cannot convert float infinity to integer")
  | S754_nan => Raise (ValueError "cannot convert float NaN to integer")
  end.

(** [n < x] for an int [n] and a float [x]. *)
Definition int_lt (n : Z) (x : float) : bool :=
  match Prim2SF x with
  | S754_zero _ => n <? 0
  | S754_finite s m e =>
      let m := if s then Z.neg m else Z.pos m in
      if 0 <=? e then n <? m * 2 ^ e else n * 2 ^ (- e) <? m
  | S754_infinity s => negb s
  | S754_nan => false
  end.

(** [float(n)] for an int [n] that a float represents. *)
Definition of_int (n : Z) : float :=
  SF2Prim (binary_normalize prec emax n 0 false).

Definition make_divisible (v : float) : result Z :=
  let divisor := 8 in
  let min_value := divisor in
  rbind (int (v + 8 / 2)%float) (fun i =>
    let new_v := Z.max min_value (i / divisor * divisor) in
    let new_v :=
      if int_lt new_v (0.9 * v)%float then new_v + divisor else new_v in
    Ok new_v).

End Binary64.

(** The supported scales as rationals and as floats, and every number a
    configuration table multiplies by the scale. *)
Definition supported_scale_both : list (Q * float) :=
  [(0.35%Q, 0.35%float); (0.5%Q, 0.5%float); (0.75%Q, 0.75%float);
   (1.0%Q, 1.0%float); (1.25%Q, 1.25%float)].

Definition scaled_widths : list Z :=
  16 :: 960 :: 576
  :: map MobileNetV3.exp (MobileNetV3.cfg_large ++ MobileNetV3.cfg_small)
  ++ map MobileNetV3.c (MobileNetV3.cfg_large ++ MobileNetV3.cfg_small).

(** Do the two give the same result? *)
Definition agree (q : Q) (x : float) : bool :=
  match Binary64.make_divisible x, MobileNetV3.make_divisible q 8 None with
  | Ok a, Ok b => a =? b
  | _, _ => false
  end.

(** ** The specification's formulations *)

Module Spec.

(** [round_to_nearest_multiple(v, d)]: the multiple of [d] nearest to [v],
    the upper one when [v] is halfway between two. *)
Definition round_to_nearest_multiple (v : Q) (d : Z) : Z :=
  Qfloor (v / inject_Z d + (1 # 2))%Q * d.

(** [candidate = max(m, round_to_nearest_multiple(v, d))] *)
Definition candidate (v : Q) (d m : Z) : Z :=
  Z.max m (round_to_nearest_multiple v d).

(** One divisor step is added when [candidate < 0.9 * v]. *)
Definition divisible (v : Q) (d m : Z) : Z :=
  if ltb (inject_Z (candidate v d m)) (0.9 * v)
  then candidate v d m + d
  else candidate v d m.

End Spec.






(** ** Formulations used by the statements *)

Section Formulas.

Context {R : Runtime}.

(** The gate of a unit: its squeeze-excite block, or nothing. *)
Definition gate (u : ResidualUnit.t) (y : Tensor) : Tensor :=
  match ResidualUnit.se u with
  | Some s => SEBlock.forward s y
  | None => y
  end.

(** [project(gate(depthwise(expand(x))))] *)
Definition projected (u : ResidualUnit.t) (x : Tensor) : Tensor :=
  ConvBNACT.forward (ResidualUnit.conv2 u)
    (gate u
       (ConvBNACT.forward (ResidualUnit.conv1 u)
          (ConvBNACT.forward (ResidualUnit.conv0 u) x))).

End Formulas.

(** The 1x1 projection without activation, as a direct-stride unit and as
    a pool-then-stride unit. *)
Definition projection_direct (in_channels out_channels : Z) (stride : Z * Z)
  : ConvBNACT.t :=
  ConvBNACT.mk
    (mkConv2d in_channels out_channels 1 (SPair (fst stride) (snd stride))
              0 1 false)
    (mkBatchNorm2d out_channels)
    None.

Definition projection_pooled (in_channels out_channels : Z) (stride : Z * Z)
  : ConvBNACTNew.t :=
  ConvBNACTNew.mk
    (mkAvgPool2d (SPair (fst stride) (snd stride))
                 (SPair (fst stride) (snd stride)) 0 true)
    (mkConv2d in_channels out_channels 1 (SInt 1) 0 1 false)
    (mkBatchNorm2d out_channels)
    None.

(** The first block of the first stage of a virtual-depth backbone. *)
Definition first_block (net : ResNet.t) : option ResNet.block :=
  match ResNet.stages net with
  | (b :: _) :: _ => Some b
  | _ => None
  end.

(** The number of channels the last convolution unit of a block
    produces. *)
Definition block_out_channels (b : ResNet.block) : Z :=
  match b with
  | ResNet.Basic b => c_out_channels (ConvBNACT.conv (BasicBlock.conv1 b))
  | ResNet.Bottleneck b =>
      c_out_channels (ConvBNACT.conv (BottleneckBlock.conv2 b))
  end.


(** ** Sample inputs *)

(** A checkpoint that holds two of the five keys of the unit [conv1]. *)
Definition partial_checkpoint : gmap string Z :=
  <["conv1_weights" := 1]> (<["conv1_bn_scale" := 2]> ∅).

Definition fresh_params : ConvBNACT.params Z := ConvBNACT.mkParams 0 0 0 0 0.

(** A [load_state_dict] that accepts what it is given and a conversion
    that changes nothing. *)
Definition accept_state_dict (_ : list (string * Z))
  : M (ConvBNACT.params Z) unit :=
  fun s => (Ok tt, s).

Definition as_is (a : Z) : Z := a.

(** ** RecMobileNetV3.py: import of a foreign checkpoint

    The parameters of a block are a record of the parameters of its
    sub-modules; a method of a sub-module runs on its component of the
    record.  [f'{n}'] of an int is its decimal notation. *)

Module Checkpoint.

(** Running [m] on the component of the store that [get] reads and [set]
    writes. *)
Definition on {S S' X : Type} (get : S -> S') (set : S' -> S -> S)
    (m : M S' X) : M S X :=
  fun s => let (r, s') := m (get s) in (r, set s' s).

(** [for i, x in enumerate(xs, start): body(i, x)], where [body] may write
    to [x]. *)
Fixpoint for_enumerate {S : Type} (body : Z -> M S unit) (start : Z)
    (xs : list S) : result unit * list S :=
  match xs with
  | [] => (Ok tt, [])
  | x :: rest =>
      match body start x with
      | (Ok _, x') =>
          let (r, rest') := for_enumerate body (start + 1) rest in
          (r, x' :: rest')
      | (Raise e, x') => (Raise e, x' :: rest)
      end
  end.

(** The parameters of a squeeze-excite block, by their [state_dict] names
    [conv1.weight], [conv1.bias], [conv2.weight], [conv2.bias]. *)
Record SEBlock_params (T : Type) : Type := mkSEBlock {
  conv1_weight : T;
  conv1_bias : T;
  conv2_weight : T;
  conv2_bias : T
}.
Arguments mkSEBlock {T}.
Arguments conv1_weight {T}.
Arguments conv1_bias {T}.
Arguments conv2_weight {T}.
Arguments conv2_bias {T}.

(** The parameters of a residual unit: [self.se] is [None] or a block. *)
Record ResidualUnit_params (T : Type) : Type := mkResidualUnit {
  conv0 : ConvBNACT.params T;
  conv1 : ConvBNACT.params T;
  se : option (SEBlock_params T);
  conv2 : ConvBNACT.params T
}.
Arguments mkResidualUnit {T}.
Arguments conv0 {T}.
Arguments conv1 {T}.
Arguments se {T}.
Arguments conv2 {T}.

(** The parameters of the mobile backbone. *)
Record MobileNetV3_params (T : Type) : Type := mkMobileNetV3 {
  stem : ConvBNACT.params T;
  block_list : list (ResidualUnit_params T);
  head : ConvBNACT.params T
}.
Arguments mkMobileNetV3 {T}.
Arguments stem {T}.
Arguments block_list {T}.
Arguments head {T}.

Section Methods.

(** [A] is the type of the arrays of the checkpoint, [T] that of tensors;
    [torch_Tensor] is the conversion of the toolkit; the two
    [load_state_dict] are the inherited methods of a normalized
    convolution unit and of a squeeze-excite block. *)
Context {A T : Type}.
Variable torch_Tensor : A -> T.
Variable conv_load_state_dict :
  list (string * T) -> M (ConvBNACT.params T) unit.
Variable se_load_state_dict :
  list (string * T) -> M (SEBlock_params T) unit.

(** [SEBlock.load_3rd_state_dict(self, _3rd_name, _state, _name_prefix)] *)
Definition SEBlock_load_3rd_state_dict (_3rd_name : string)
    (_state : gmap string A) (_name_prefix : string)
  : M (SEBlock_params T) unit :=
  let to_load_state_dict : list (string * T) := [] in
  if String.eqb _3rd_name "paddle" then
    w <- getitem _state (_name_prefix +:+ "_1_weights") ;;
    let to_load_state_dict :=
      to_load_state_dict ++ [("conv1.weight", torch_Tensor w)] in
    w <- getitem _state (_name_prefix +:+ "_2_weights") ;;
    let to_load_state_dict :=
      to_load_state_dict ++ [("conv2.weight", torch_Tensor w)] in
    w <- getitem _state (_name_prefix +:+ "_1_offset") ;;
    let to_load_state_dict :=
      to_load_state_dict ++ [("conv1.bias", torch_Tensor w)] in
    w <- getitem _state (_name_prefix +:+ "_2_offset") ;;
    let to_load_state_dict :=
      to_load_state_dict ++ [("conv2.bias", torch_Tensor w)] in
    se_load_state_dict to_load_state_dict
  else
    ret tt.

(** [ResidualUnit.load_3rd_state_dict(self, _3rd_name, _state,
    _convolution_index)] *)
Definition ResidualUnit_load_3rd_state_dict (_3rd_name : string)
    (_state : gmap string A) (_convolution_index : Z)
  : M (ResidualUnit_params T) unit :=
  if String.eqb _3rd_name "paddle" then
    on conv0 (fun p s => mkResidualUnit p (conv1 s) (se s) (conv2 s))
       (ConvBNACT.load_3rd_state_dict torch_Tensor conv_load_state_dict
          _3rd_name _state
          ("conv" +:+ pretty _convolution_index +:+ "_expand")) ;;
    on conv1 (fun p s => mkResidualUnit (conv0 s) p (se s) (conv2 s))
       (ConvBNACT.load_3rd_state_dict torch_Tensor conv_load_state_dict
          _3rd_name _state
          ("conv" +:+ pretty _convolution_index +:+ "_depthwise")) ;;
    (fun s =>
       match se s with
       | Some p =>
           let (r, p') :=
             SEBlock_load_3rd_state_dict _3rd_name _state
               ("conv" +:+ pretty _convolution_index +:+ "_se") p in
           (r, mkResidualUnit (conv0 s) (conv1 s) (Some p') (conv2 s))
       | None => (Ok tt, s)
       end) ;;
    on conv2 (fun p s => mkResidualUnit (conv0 s) (conv1 s) (se s) p)
       (ConvBNACT.load_3rd_state_dict torch_Tensor conv_load_state_dict
          _3rd_name _state
          ("conv" +:+ pretty _convolution_index +:+ "_linear"))
  else
    ret tt.

(** [MobileNetV3.load_3rd_state_dict(self, _3rd_name, _state)] *)
Definition MobileNetV3_load_3rd_state_dict (_3rd_name : string)
    (_state : gmap string A) : M (MobileNetV3_params T) unit :=
  if String.eqb _3rd_name "paddle" then
    on stem (fun p s => mkMobileNetV3 p (block_list s) (head s))
       (ConvBNACT.load_3rd_state_dict torch_Tensor conv_load_state_dict
          _3rd_name _state "conv1") ;;
    on block_list (fun p s => mkMobileNetV3 (stem s) p (head s))
       (for_enumerate
          (fun m_block_index =>
             ResidualUnit_load_3rd_state_dict _3rd_name _state m_block_index)
          2) ;;
    on head (fun p s => mkMobileNetV3 (stem s) (block_list s) p)
       (ConvBNACT.load_3rd_state_dict torch_Tensor conv_load_state_dict
          _3rd_name _state "conv_last")
  else
    ret tt.

End Methods.

(** The keys the methods read, in the order they read them. *)
Definition SEBlock_keys (p : string) : list string :=
  [p +:+ "_1_weights"; p +:+ "_2_weights"; p +:+ "_1_offset";
   p +:+ "_2_offset"].

Definition ResidualUnit_keys {T} (i : Z) (u : ResidualUnit_params T)
  : list string :=
  ConvBNACT.required_keys ("conv" +:+ pretty i +:+ "_expand")
  ++ ConvBNACT.required_keys ("conv" +:+ pretty i +:+ "_depthwise")
  ++ match se u with
     | Some _ => SEBlock_keys ("conv" +:+ pretty i +:+ "_se")
     | None => []
     end
  ++ ConvBNACT.required_keys ("conv" +:+ pretty i +:+ "_linear").

Fixpoint blocks_keys {T} (start : Z) (us : list (ResidualUnit_params T))
  : list string :=
  match us with
  | [] => []
  | u :: rest => ResidualUnit_keys start u ++ blocks_keys (start + 1) rest
  end.

Definition MobileNetV3_keys {T} (s : MobileNetV3_params T) : list string :=
  ConvBNACT.required_keys "conv1"
  ++ blocks_keys 2 (block_list s)
  ++ ConvBNACT.required_keys "conv_last".

(** The first key of a list that a checkpoint does not hold. *)
Definition first_missing {A} (_state : gmap string A) (ks : list string)
  : option string :=
  find (fun k => match _state !! k with None => true | Some _ => false end)
       ks.

(** The outcome of an import that reads the keys [ks] and whose
    [load_state_dict] accept what they are given. *)
Definition outcome {A} (_state : gmap string A) (ks : list string)
  : result unit :=
  match first_missing _state ks with
  | Some k => Raise (KeyError k)
  | None => Ok tt
  end.

(** The parameters of a backbone, every one of them [t0]. *)
Definition uniform_params {T} (t0 : T) (net : MobileNetV3.t)
  : MobileNetV3_params T :=
  let c := ConvBNACT.mkParams t0 t0 t0 t0 t0 in
  mkMobileNetV3 c
    (map (fun u : ResidualUnit.t =>
            mkResidualUnit c c
              (match ResidualUnit.se u with
               | Some _ => Some (mkSEBlock t0 t0 t0 t0)
               | None => None
               end) c)
         (MobileNetV3.block_list net))
    c.

End Checkpoint.

(** ** More sample inputs *)

(** A [load_state_dict] that installs, by name, the tensors it is given. *)
Definition install_state_dict (l : list (string * Z))
  : M (ConvBNACT.params Z) unit :=
  fun s =>
    let entry (name : string) (old : Z) : Z :=
      match find (fun e => String.eqb (fst e) name) l with
      | Some e => snd e
      | None => old
      end in
    (Ok tt,
     ConvBNACT.mkParams
       (entry "conv.weight" (ConvBNACT.conv_weight _ s))
       (entry "bn.weight" (ConvBNACT.bn_weight _ s))
       (entry "bn.bias" (ConvBNACT.bn_bias _ s))
       (entry "bn.running_mean" (ConvBNACT.bn_running_mean _ s))
       (entry "bn.running_var" (ConvBNACT.bn_running_var _ s))).

Definition accept_se_state_dict (_ : list (string * Z))
  : M (Checkpoint.SEBlock_params Z) unit :=
  fun s => (Ok tt, s).

(** A checkpoint that holds the five keys of the expand convolution of the
    block of index 2 and nothing else. *)
Definition expand_only_checkpoint : gmap string Z :=
  <["conv2_expand_weights" := 1]>
    (<["conv2_expand_bn_scale" := 2]>
       (<["conv2_expand_bn_offset" := 3]>
          (<["conv2_expand_bn_mean" := 4]>
             (<["conv2_expand_bn_variance" := 5]> ∅)))).

Definition fresh_unit : Checkpoint.ResidualUnit_params Z :=
  Checkpoint.mkResidualUnit fresh_params fresh_params None fresh_params.

Definition fresh_backbone : Checkpoint.MobileNetV3_params Z :=
  Checkpoint.mkMobileNetV3 fresh_params [fresh_unit] fresh_params.

(** ** rec_resnet_vd.py: the forward passes over operations that may raise

    The convolution, the normalisation, the pools and the sum of two
    tensors raise on the inputs the toolkit refuses (a wrong number of
    channels, shapes that do not match); the activations do not. *)

Module Partial.

Class Toolkit : Type := {
  tensor : Type;
  relu_ : tensor -> tensor;
  hard_swish : tensor -> tensor;
  add : tensor -> tensor -> result tensor;
  conv2d : Conv2d -> tensor -> result tensor;
  batch_norm2d : BatchNorm2d -> tensor -> result tensor;
  max_pool2d : MaxPool2d -> tensor -> result tensor;
  avg_pool2d : AvgPool2d -> tensor -> result tensor
}.

Section Forward.

Context {K : Toolkit}.

(** [ConvBNACT.forward] *)
Definition ConvBNACT_forward (self : ConvBNACT.t) (x : tensor)
  : result tensor :=
  rbind (conv2d (ConvBNACT.conv self) x) (fun x =>
  rbind (batch_norm2d (ConvBNACT.bn self) x) (fun x =>
  match ConvBNACT.act self with
  | Some (ConvBNACT.ActReLU _) => Ok (relu_ x)
  | Some (ConvBNACT.ActHSwish _) => Ok (hard_swish x)
  | None => Ok x
  end)).

(** [ConvBNACTNew.forward] *)
Definition ConvBNACTNew_forward (self : ConvBNACTNew.t) (x : tensor)
  : result tensor :=
  rbind (avg_pool2d (ConvBNACTNew.pool self) x) (fun x =>
  rbind (conv2d (ConvBNACTNew.conv self) x) (fun x =>
  rbind (batch_norm2d (ConvBNACTNew.bn self) x) (fun x =>
  match ConvBNACTNew.act self with
  | Some _ => Ok (relu_ x)
  | None => Ok x
  end))).

(** [ShurtCut.forward] *)
Definition ShurtCut_forward (self : ShurtCut.t) (x : tensor)
  : result tensor :=
  match ShurtCut.conv self with
  | Some (ShurtCut.Direct m) => ConvBNACT_forward m x
  | Some (ShurtCut.Pooled m) => ConvBNACTNew_forward m x
  | None => Ok x
  end.

(** [BasicBlock.forward] *)
Definition BasicBlock_forward (self : BasicBlock.t) (x : tensor)
  : result tensor :=
  rbind (ConvBNACT_forward (BasicBlock.conv0 self) x) (fun y =>
  rbind (ConvBNACT_forward (BasicBlock.conv1 self) y) (fun y =>
  rbind (ShurtCut_forward (BasicBlock.shortcut self) x) (fun s =>
  rbind (add y s) (fun y =>
  Ok (relu_ y))))).

(** [BottleneckBlock.forwart] *)
Definition BottleneckBlock_forwart (self : BottleneckBlock.t) (x : tensor)
  : result tensor :=
  rbind (ConvBNACT_forward (BottleneckBlock.conv0 self) x) (fun y =>
  rbind (ConvBNACT_forward (BottleneckBlock.conv1 self) y) (fun y =>
  rbind (ConvBNACT_forward (BottleneckBlock.conv2 self) y) (fun y =>
  rbind (ShurtCut_forward (BottleneckBlock.shortcut self) x) (fun s =>
  rbind (add y s) (fun y =>
  Ok (relu_ y)))))).

(** [module(x)]: the [forward] entry of the class's own methods, else the
    inherited one. *)
Definition call {Self : Type}
    (methods : list (string * (Self -> tensor -> result tensor)))
    (self : Self) (x : tensor) : result tensor :=
  match find (fun m => String.eqb (fst m) "forward") methods with
  | Some m => snd m self x
  | None => Module_forward x
  end.

Definition BasicBlock_methods
  : list (string * (BasicBlock.t -> tensor -> result tensor)) :=
  [("forward", BasicBlock_forward)].

Definition BottleneckBlock_methods
  : list (string * (BottleneckBlock.t -> tensor -> result tensor)) :=
  [("forwart", BottleneckBlock_forwart)].

Definition block_call (b : ResNet.block) (x : tensor) : result tensor :=
  match b with
  | ResNet.Basic b => call BasicBlock_methods b x
  | ResNet.Bottleneck b => call BottleneckBlock_methods b x
  end.

(** [self.conv1(x)], the [nn.Sequential] of the units of the stem. *)
Definition stem (self : ResNet.t) (x : tensor) : result tensor :=
  Sequential_forward ConvBNACT_forward (ResNet.conv1 self) x.

(** [for stage in self.stages: x = stage(x)] *)
Fixpoint stages_forward (stages : list (list ResNet.block)) (x : tensor)
  : result tensor :=
  match stages with
  | [] => Ok x
  | stage :: rest =>
      rbind (Sequential_forward block_call stage x) (stages_forward rest)
  end.

(** [ResNet.forward] *)
Definition ResNet_forward (self : ResNet.t) (x : tensor) : result tensor :=
  rbind (stem self x) (fun x =>
  rbind (max_pool2d (ResNet.pool1 self) x) (fun x =>
  rbind (stages_forward (ResNet.stages self) x) (fun x =>
  max_pool2d (ResNet.out self) x))).

End Forward.

End Partial.

(** A toolkit whose tensors are integers and whose layers change
    nothing. *)
Definition toy_toolkit : Partial.Toolkit :=
  {| Partial.tensor := Z;
     Partial.relu_ := fun x => x;
     Partial.hard_swish := fun x => x;
     Partial.add := fun x y => Ok (x + y);
     Partial.conv2d := fun _ x => Ok x;
     Partial.batch_norm2d := fun _ x => Ok x;
     Partial.max_pool2d := fun _ x => Ok x;
     Partial.avg_pool2d := fun _ x => Ok x |}.

(** ** Formulations used by the further statements *)

(** The number of channels a block of the virtual-depth backbone takes,
    and the stride of its strided convolution. *)
Definition block_in_channels (b : ResNet.block) : Z :=
  match b with
  | ResNet.Basic b => c_in_channels (ConvBNACT.conv (BasicBlock.conv0 b))
  | ResNet.Bottleneck b =>
      c_in_channels (ConvBNACT.conv (BottleneckBlock.conv0 b))
  end.

Definition block_stride (b : ResNet.block) : stride_t :=
  match b with
  | ResNet.Basic b => c_stride (ConvBNACT.conv (BasicBlock.conv0 b))
  | ResNet.Bottleneck b => c_stride (ConvBNACT.conv (BottleneckBlock.conv1 b))
  end.

Definition is_basic (b : ResNet.block) : bool :=
  match b with
  | ResNet.Basic _ => true
  | ResNet.Bottleneck _ => false
  end.

(** Every block takes the channels the block before it produces, the first
    one [c]. *)
Fixpoint blocks_chained (c : Z) (bs : list ResNet.block) : Prop :=
  match bs with
  | [] => True
  | b :: rest =>
      block_in_channels b = c /\ blocks_chained (block_out_channels b) rest
  end.

(** The strides of the stages: vertical stride 2 at the first block of
    every stage but the first, stride 1 everywhere else. *)
Fixpoint stage_strides (first : bool) (depth : list Z)
  : list (list stride_t) :=
  match depth with
  | [] => []
  | n :: rest =>
      ((if first then SPair 1 1 else SPair 2 1)
         :: repeat (SPair 1 1) (Z.to_nat (n - 1)))
      :: stage_strides false rest
  end.

(** A residual unit of the mobile backbone is consistent inside: the
    depthwise convolution has as many groups as channels in and out, which
    are those the expand convolution produces and the project convolution
    and the gate take. *)
Definition unit_consistent (u : ResidualUnit.t) : Prop :=
  let mid := c_out_channels (ConvBNACT.conv (ResidualUnit.conv0 u)) in
  c_in_channels (ConvBNACT.conv (ResidualUnit.conv1 u)) = mid
  /\ c_out_channels (ConvBNACT.conv (ResidualUnit.conv1 u)) = mid
  /\ c_groups (ConvBNACT.conv (ResidualUnit.conv1 u)) = mid
  /\ c_in_channels (ConvBNACT.conv (ResidualUnit.conv2 u)) = mid
  /\ match ResidualUnit.se u with
     | Some s =>
         c_in_channels (SEBlock.conv1 s) = mid
         /\ c_out_channels (SEBlock.conv2 s) = mid
         /\ c_out_channels (SEBlock.conv1 s)
            = c_in_channels (SEBlock.conv2 s)
     | None => True
     end.

(** Every unit is consistent and takes the channels the one before it
    produces, the first one [c]; the last one produces [last]. *)
Fixpoint units_chained (c : Z) (us : list ResidualUnit.t) (last : Z) : Prop :=
  match us with
  | [] => c = last
  | u :: rest =>
      c_in_channels (ConvBNACT.conv (ResidualUnit.conv0 u)) = c
      /\ unit_consistent u
      /\ units_chained
           (c_out_channels (ConvBNACT.conv (ResidualUnit.conv2 u))) rest last
  end.

(** What the shortcut of a block is. *)
Inductive shortcut_kind_t : Type := Identity | DirectProjection | PooledProjection.

Definition kind_eqb (a b : shortcut_kind_t) : bool :=
  match a, b with
  | Identity, Identity => true
  | DirectProjection, DirectProjection => true
  | PooledProjection, PooledProjection => true
  | _, _ => false
  end.

Definition shortcut_kind (b : ResNet.block) : shortcut_kind_t :=
  match ShurtCut.conv
          (match b with
           | ResNet.Basic b => BasicBlock.shortcut b
           | ResNet.Bottleneck b => BottleneckBlock.shortcut b
           end)
  with
  | None => Identity
  | Some (ShurtCut.Direct _) => DirectProjection
  | Some (ShurtCut.Pooled _) => PooledProjection
  end.

(** A projection at the head of every stage, the direct one at the head of
    the first, and the identity after it. *)
Fixpoint shortcut_layout (first : bool) (depth : list Z)
  : list (list shortcut_kind_t) :=
  match depth with
  | [] => []
  | n :: rest =>
      ((if first then DirectProjection else PooledProjection)
         :: repeat Identity (Z.to_nat (n - 1)))
      :: shortcut_layout false rest
  end.
(** ** Numbers *)

Section Numbers.

Lemma Qle_bool_false (a b : Q) : Qle_bool a b = false -> (b < a)%Q.
Proof.
  intros E. apply Qnot_le_lt. intros L.
  apply Qle_bool_iff in L. congruence.
Qed.

Lemma ltb_spec (a b : Q) : reflect (a < b)%Q (ltb a b).
Proof.
  unfold ltb. destruct (Qle_bool b a) eqn:E; constructor.
  - apply Qle_bool_iff in E. now apply Qle_not_lt.
  - now apply Qle_bool_false.
Qed.

Lemma gtb_spec (a b : Q) : reflect (b < a)%Q (gtb a b).
Proof. apply ltb_spec. Qed.

(** [int] is the floor on the numbers that are not negative. *)
Lemma int_nonneg (x : Q) : (0 <= x)%Q -> int x = Qfloor x.
Proof.
  destruct x as [n d]. unfold Qle, int, Qfloor. simpl. intros L.
  apply Z.quot_div_nonneg; lia.
Qed.

(** [int] of a negative number is not positive. *)
Lemma int_neg (x : Q) : (x < 0)%Q -> int x <= 0.
Proof.
  destruct x as [n d]. unfold Qlt, int. simpl. intros L.
  apply Z.quot_le_upper_bound; lia.
Qed.

End Numbers.

(** ** Activation primitives *)

(** C6. For every input [x] and every [slope] and [offset], the forward
    pass of the hard-sigmoid, two chained one-sided thresholds on the
    negated value, is the number [clamp(slope * x + offset, 0, 1)] of the
    direct formulation; the defaults are [0.2] and [0.5]. *)
Theorem HardSigmoid_forward_is_clamp :
  (forall (slope offset x : Q),
      HardSigmoid.elem (HardSigmoid.mk slope offset) x
      == HardSigmoid.clamp (slope * x + offset) 0 1)
  /\ (forall log,
        fst (HardSigmoid.init None None log)
        = Ok (HardSigmoid.mk 0.2 0.5)).
Proof.
  split; [| reflexivity].
  intros slope offset x.
  unfold HardSigmoid.elem, HardSigmoid.clamp, threshold. cbn [HardSigmoid.slope HardSigmoid.offset].
  set (v := (slope * x + offset)%Q).
  destruct (gtb_spec (- v) (-1)) as [A | A];
    [ destruct (gtb_spec (- - v) 0) as [B | B]
    | destruct (gtb_spec (- -1) 0) as [B | B] ];
    destruct (ltb_spec v 0) as [C | C];
    destruct (gtb_spec v 1) as [D | D];
    try lra.
Qed.

(** ** Divisibility rounding *)

Section MakeDivisible.

Lemma Qfloor_div_pos (q : Q) (d : positive) :
  Qfloor (q / inject_Z (Z.pos d)) = Qfloor q / Z.pos d.
Proof.
  destruct q as [n m]. unfold Qdiv, Qinv, Qmult, inject_Z, Qfloor. simpl.
  rewrite Z.mul_1_r, Pos2Z.inj_mul. now rewrite Z.div_div by lia.
Qed.

(** [round_to_nearest_multiple v d] is a multiple of [d] at distance at
    most [d / 2] from [v]. *)
Lemma round_to_nearest_multiple_nearest (v : Q) (d : Z) :
  0 < d ->
  (d | Spec.round_to_nearest_multiple v d)
  /\ (inject_Z (Spec.round_to_nearest_multiple v d) - inject_Z d / 2 <= v)%Q
  /\ (v < inject_Z (Spec.round_to_nearest_multiple v d) + inject_Z d / 2)%Q.
Proof.
  intros D. unfold Spec.round_to_nearest_multiple.
  set (f := Qfloor (v / inject_Z d + (1 # 2))%Q).
  assert (P : (0 < inject_Z d)%Q) by (unfold Qlt; simpl; lia).
  assert (L : (inject_Z f <= v / inject_Z d + (1 # 2))%Q) by apply Qfloor_le.
  assert (U : (v / inject_Z d + (1 # 2) < inject_Z (f + 1))%Q)
    by apply Qlt_floor.
  rewrite inject_Z_plus in U. change (inject_Z 1) with 1%Q in U.
  assert (E : (v == v / inject_Z d * inject_Z d)%Q) by (field; lra).
  set (t := (v / inject_Z d)%Q) in *.
  assert (G1 : ((inject_Z f - (1 # 2)) * inject_Z d <= t * inject_Z d)%Q)
    by (apply Qmult_le_compat_r; lra).
  assert (G2 : (t * inject_Z d < (inject_Z f + (1 # 2)) * inject_Z d)%Q)
    by (apply Qmult_lt_compat_r; lra).
  split; [exists f; reflexivity |].
  assert (H : (inject_Z d / 2 == (1 # 2) * inject_Z d)%Q) by field.
  rewrite inject_Z_mult, H.
  split; lra.
Qed.

(** The rounding of the code and that of the specification agree wherever
    the minimum does not hide them. *)
Lemma max_round_agree (v : Q) :
  Z.max 8 (int (v + inject_Z 8 / 2) / 8 * 8)
  = Z.max 8 (Spec.round_to_nearest_multiple v 8).
Proof.
  unfold Spec.round_to_nearest_multiple.
  assert (E : Qfloor (v / inject_Z 8 + (1 # 2))%Q = Qfloor (v + inject_Z 8 / 2)%Q / 8).
  { rewrite <- Qfloor_div_pos. apply Qfloor_comp. unfold inject_Z. field. }
  rewrite E.
  destruct (Qlt_le_dec (v + inject_Z 8 / 2) 0) as [N | P].
  - pose proof (int_neg _ N) as I.
    assert (F : Qfloor (v + inject_Z 8 / 2) <= 0).
    { apply (Qfloor_resp_le _ 0). now apply Qlt_le_weak. }
    assert (int (v + inject_Z 8 / 2) / 8 <= 0) by (apply Z.div_le_upper_bound; lia).
    assert (Qfloor (v + inject_Z 8 / 2) / 8 <= 0) by (apply Z.div_le_upper_bound; lia).
    lia.
  - now rewrite (int_nonneg _ P).
Qed.

Lemma agree_eq (q : Q) (x : float) :
  agree q x = true ->
  Binary64.make_divisible x = MobileNetV3.make_divisible q 8 None.
Proof.
  unfold agree.
  destruct (Binary64.make_divisible x), (MobileNetV3.make_divisible q 8 None);
    try discriminate.
  intros E. apply Z.eqb_eq in E. now subst.
Qed.

(** On every width of the supported configurations, and on the five
    sample values, binary64 arithmetic gives what exact arithmetic gives. *)
Lemma make_divisible_binary64_agrees :
  Forall (fun s : Q * float =>
            Forall (fun n : Z =>
                      Binary64.make_divisible (snd s * Binary64.of_int n)
                      = MobileNetV3.make_divisible (fst s * inject_Z n) 8 None)
                   scaled_widths)
         supported_scale_both
  /\ Forall (fun s : Q * float =>
               Binary64.make_divisible (snd s)
               = MobileNetV3.make_divisible (fst s) 8 None)
            [(16%Q, 16%float); (17%Q, 17%float); (5%Q, 5%float);
             (4.1%Q, 4.1%float); (8.9%Q, 8.9%float)].
Proof.
  assert (A : forallb (fun s : Q * float =>
                forallb (fun n : Z =>
                           agree (fst s * inject_Z n)
                                 (snd s * Binary64.of_int n))
                        scaled_widths)
              supported_scale_both = true) by (vm_compute; reflexivity).
  assert (B : forallb (fun s : Q * float => agree (fst s) (snd s))
                [(16%Q, 16%float); (17%Q, 17%float); (5%Q, 5%float);
                 (4.1%Q, 4.1%float); (8.9%Q, 8.9%float)] = true)
    by (vm_compute; reflexivity).
  split.
  - apply List.Forall_forall. intros s Hs. apply List.Forall_forall. intros n Hn.
    apply agree_eq.
    rewrite forallb_forall in A. specialize (A s Hs).
    rewrite forallb_forall in A. exact (A n Hn).
  - apply List.Forall_forall. intros s Hs. apply agree_eq.
    rewrite forallb_forall in B. exact (B s Hs).
Qed.

End MakeDivisible.

(** On exact rationals, with divisor 8 and minimum 8, [make_divisible]
    returns [candidate = max(m, round_to_nearest_multiple(v, d))] plus one
    divisor step exactly when [candidate < 0.9 * v]. *)
Lemma make_divisible_exact_arithmetic (v : Q) :
  MobileNetV3.make_divisible v 8 None = Ok (Spec.divisible v 8 8).
Proof.
  unfold MobileNetV3.make_divisible, Spec.divisible, Spec.candidate.
  cbn [default Z.eqb]. now rewrite max_round_agree.
Qed.






(** ** Residual units of the mobile backbone *)

Section Forward.

Context {R : Runtime}.

Lemma ResidualUnit_forward_not_add (u : ResidualUnit.t) (x : Tensor) :
  ResidualUnit.forward u x
  = if ResidualUnit.not_add u then projected u x else tadd (projected u x) x.
Proof.
  unfold ResidualUnit.forward, projected, gate.
  destruct (ResidualUnit.not_add u); cbn [Bool.eqb]; [reflexivity |].
  apply tadd_comm.
Qed.

End Forward.

(** C4. A mobile-inverted residual unit built with [num_in], [num_out] and
    [stride] returns [project(gate(depthwise(expand(x)))) + x] when
    [num_in == num_out] and [stride == 1], and the projected result with no
    added term otherwise; the gate is the identity when [use_se] is false.
    [stride == 1] is the comparison of Python: the int 1 is equal to 1 and
    a tuple is not. *)
Theorem ResidualUnit_forward_shortcut :
  forall (R : Runtime) (num_in num_mid num_out : Z) (stride : stride_t)
         (kernel_size : Z) (act : option act_name) (use_se : bool)
         (log : list string),
  exists (u : ResidualUnit.t) (log' : list string),
    ResidualUnit.init num_in num_mid num_out stride kernel_size act use_se log
    = (Ok u, log')
    /\ (if use_se then is_Some (ResidualUnit.se u)
        else forall y, gate u y = y)
    /\ forall x : Tensor,
        ResidualUnit.forward u x
        = if (num_in =? num_out) && negb (stride_ne_1 stride)
          then tadd (projected u x) x
          else projected u x.
Proof.
  intros.
  destruct use_se, act as [[] |];
    (eexists; eexists; split; [reflexivity |]);
    (split; [first [now eexists | reflexivity] |]);
    intros x; rewrite ResidualUnit_forward_not_add;
    cbn [ResidualUnit.not_add];
    destruct (num_in =? num_out), (stride_ne_1 stride); reflexivity.
Qed.

(** ** Blocks of the virtual-depth backbone *)

Section Blocks.

Context {R : Runtime}.

Lemma call_forward {Self : Type} (f : Self -> Tensor -> Tensor)
    (self : Self) (x : Tensor) :
  call [("forward", f)] self x = Ok (f self x).
Proof. reflexivity. Qed.

(** A basic block is called through its [forward]. *)
Lemma BasicBlock_call (b : BasicBlock.t) (x : Tensor) :
  call BasicBlock.methods b x = Ok (BasicBlock.forward b x).
Proof. apply call_forward. Qed.

(** What the method [forwart] computes is the formula of the bottleneck
    block. *)
Lemma BottleneckBlock_forwart_formula (b : BottleneckBlock.t) (x : Tensor) :
  BottleneckBlock.forwart b x
  = pointwise relu
      (tadd (ConvBNACT.forward (BottleneckBlock.conv2 b)
               (ConvBNACT.forward (BottleneckBlock.conv1 b)
                  (ConvBNACT.forward (BottleneckBlock.conv0 b) x)))
            (ShurtCut.forward (BottleneckBlock.shortcut b) x)).
Proof. reflexivity. Qed.

Lemma rbind_Raise_fold {A B : Type} (f : B -> A -> result A) (l : list B)
    (e : exn) :
  fold_left (fun r b => rbind r (f b)) l (Raise e) = Raise e.
Proof. induction l as [| b l IH]; [reflexivity | exact IH]. Qed.

(** A backbone whose first block is a bottleneck block raises on every
    input. *)
Lemma ResNet_forward_bottleneck_first (net : ResNet.t) (b : BottleneckBlock.t)
    (x : Tensor) :
  first_block net = Some (ResNet.Bottleneck b) ->
  ResNet.forward net x = Raise (NotImplementedError "forward").
Proof.
  unfold first_block, ResNet.forward. intros F.
  destruct (ResNet.stages net) as [| [| b0 stage] stages]; try discriminate.
  injection F as ->. cbn [fold_left rbind Sequential_forward ResNet.block_call].
  change (call BottleneckBlock.methods b _)
    with (@Raise Tensor (NotImplementedError "forward")).
  cbn [rbind]. now rewrite rbind_Raise_fold.
Qed.

(** So does the forward pass of the backbone of depth 50. *)
Lemma ResNet50_forward_raises (in_channels : Z) (log : list string) :
  exists (net : ResNet.t) (log' : list string),
    ResNet.init in_channels 50 log = (Ok net, log')
    /\ forall x : Tensor,
        ResNet.forward net x = Raise (NotImplementedError "forward").
Proof.
  eexists; eexists. split; [vm_compute; reflexivity |].
  intros x. eapply ResNet_forward_bottleneck_first. reflexivity.
Qed.

End Blocks.

(** C1. The forward pass of a bottleneck block should return
    [relu(conv2(conv1(conv0(x))) + shortcut(x))].  The class defines that
    computation under the name [forwart], so calling any bottleneck block,
    on any input, raises the [NotImplementedError] of the inherited
    [forward] instead. *)
Theorem BottleneckBlock_call_raises :
  forall (R : Runtime) (in_channels out_channels : Z) (stride : Z * Z)
         (if_first : bool) (log : list string),
  exists (b : BottleneckBlock.t) (log' : list string),
    BottleneckBlock.init in_channels out_channels stride if_first log
    = (Ok b, log')
    /\ forall x : Tensor,
        call BottleneckBlock.methods b x
        = Raise (NotImplementedError "forward").
Proof.
  intros.
  assert (C : forall (b : BottleneckBlock.t) (x : Tensor),
             call BottleneckBlock.methods b x
             = Raise (NotImplementedError "forward")) by reflexivity.
  unfold BottleneckBlock.init, ShurtCut.init.
  destruct (negb (in_channels =? out_channels * 4) || negb (fst stride =? 1)),
    if_first;
    eexists; eexists; (split; [reflexivity | intros x; apply C]).
Qed.

(** ** The shortcut sub-block *)

Lemma ShurtCut_init_conv (in_channels out_channels : Z) (stride : Z * Z)
    (if_first : bool) (log : list string) :
  exists log' : list string,
    ShurtCut.init in_channels out_channels stride if_first log
    = (Ok (ShurtCut.mk
             (if negb (in_channels =? out_channels) || negb (fst stride =? 1)
              then Some (if if_first
                         then ShurtCut.Direct
                                (projection_direct in_channels out_channels stride)
                         else ShurtCut.Pooled
                                (projection_pooled in_channels out_channels stride))
              else if if_first
                   then Some (ShurtCut.Direct
                                (projection_direct in_channels out_channels stride))
                   else None)),
       log').
Proof.
  unfold ShurtCut.init.
  destruct (negb (in_channels =? out_channels) || negb (fst stride =? 1)),
    if_first; eexists; reflexivity.
Qed.



(** C9. A shortcut built with [if_first] true is the 1x1 direct-stride
    projection without activation whatever the channels and the stride, so
    it is never the identity: its forward pass is a convolution followed by
    a normalisation.  At depths 18 and 34 the first block of the first
    stage, 64 channels to 64 at stride (1, 1), has that shortcut. *)
Theorem ShurtCut_first_never_identity :
  (forall (in_channels out_channels : Z) (stride : Z * Z) (log : list string),
   exists (sc : ShurtCut.t) (log' : list string),
     ShurtCut.init in_channels out_channels stride true log = (Ok sc, log')
     /\ ShurtCut.conv sc
        = Some (ShurtCut.Direct
                  (projection_direct in_channels out_channels stride))
     /\ forall (R : Runtime) (x : Tensor),
         ShurtCut.forward sc x
         = BatchNorm2d_forward (mkBatchNorm2d out_channels)
             (Conv2d_forward
                (mkConv2d in_channels out_channels 1
                          (SPair (fst stride) (snd stride)) 0 1 false) x))
  /\ (forall (in_channels : Z) (log : list string),
      exists (net : ResNet.t) (log' : list string) (b : BasicBlock.t),
        ResNet.init in_channels 18 log = (Ok net, log')
        /\ first_block net = Some (ResNet.Basic b)
        /\ ConvBNACT.conv (BasicBlock.conv0 b)
           = mkConv2d 64 64 3 (SPair 1 1) 1 1 false
        /\ ShurtCut.conv (BasicBlock.shortcut b)
           = Some (ShurtCut.Direct (projection_direct 64 64 (1, 1))))
  /\ (forall (in_channels : Z) (log : list string),
      exists (net : ResNet.t) (log' : list string) (b : BasicBlock.t),
        ResNet.init in_channels 34 log = (Ok net, log')
        /\ first_block net = Some (ResNet.Basic b)
        /\ ConvBNACT.conv (BasicBlock.conv0 b)
           = mkConv2d 64 64 3 (SPair 1 1) 1 1 false
        /\ ShurtCut.conv (BasicBlock.shortcut b)
           = Some (ShurtCut.Direct (projection_direct 64 64 (1, 1)))).
Proof.
  split; [| split].
  - intros.
    destruct (ShurtCut_init_conv in_channels out_channels stride true log)
      as [log' E].
    eexists; exists log'; split; [exact E |].
    cbn [ShurtCut.conv].
    destruct (negb (in_channels =? out_channels) || negb (fst stride =? 1));
      split; reflexivity.
  - intros. eexists; eexists; eexists.
    split; [vm_compute; reflexivity |]. repeat split.
  - intros. eexists; eexists; eexists.
    split; [vm_compute; reflexivity |]. repeat split.
Qed.

(** ** Import of a foreign checkpoint into one unit *)

(** C3. With tag ['paddle'], if one of the five keys of a unit is absent
    from the map, the import of the unit raises the [KeyError] of an absent
    key of the unit, and the parameters and running statistics of the unit
    are what they were. *)
Theorem ConvBNACT_import_missing_key :
  forall (A T : Type) (torch_Tensor : A -> T)
         (load_state_dict : list (string * T) -> M (ConvBNACT.params T) unit)
         (_state : gmap string A) (_name_prefix : string)
         (self : ConvBNACT.params T),
    (exists k : string,
        In k (ConvBNACT.required_keys _name_prefix) /\ _state !! k = None) ->
    exists k : string,
      In k (ConvBNACT.required_keys _name_prefix)
      /\ _state !! k = None
      /\ ConvBNACT.load_3rd_state_dict torch_Tensor load_state_dict
           "paddle" _state _name_prefix self
         = (Raise (KeyError k), self).
Proof.
  intros A T torch_Tensor load_state_dict _state p self (k & I & N).
  unfold ConvBNACT.load_3rd_state_dict, ConvBNACT.required_keys in *.
  cbn [String.eqb Ascii.eqb Bool.eqb].
  unfold bind, getitem, raise, ret.
  destruct (_state !! (p +:+ "_weights")) eqn:E1;
    [| exists (p +:+ "_weights"); simpl; tauto].
  destruct (_state !! (p +:+ "_bn_scale")) eqn:E2;
    [| exists (p +:+ "_bn_scale"); simpl; tauto].
  destruct (_state !! (p +:+ "_bn_offset")) eqn:E3;
    [| exists (p +:+ "_bn_offset"); simpl; tauto].
  destruct (_state !! (p +:+ "_bn_mean")) eqn:E4;
    [| exists (p +:+ "_bn_mean"); simpl; tauto].
  destruct (_state !! (p +:+ "_bn_variance")) eqn:E5;
    [| exists (p +:+ "_bn_variance"); simpl; tauto].
  simpl in I. destruct I as [<- | [<- | [<- | [<- | [<- | []]]]]]; congruence.
Qed.

Lemma ConvBNACT_import_missing_key_witness :
  (exists k : string,
      In k (ConvBNACT.required_keys "conv1")
      /\ partial_checkpoint !! k = None)
  /\ exists k : string,
      In k (ConvBNACT.required_keys "conv1")
      /\ partial_checkpoint !! k = None
      /\ ConvBNACT.load_3rd_state_dict as_is accept_state_dict
           "paddle" partial_checkpoint "conv1" fresh_params
         = (Raise (KeyError k), fresh_params).
Proof.
  assert (H : exists k : string,
             In k (ConvBNACT.required_keys "conv1")
             /\ partial_checkpoint !! k = None).
  { exists "conv1_bn_offset". split; [simpl; tauto | vm_compute; reflexivity]. }
  split; [exact H |].
  exact (ConvBNACT_import_missing_key Z Z as_is accept_state_dict
           partial_checkpoint "conv1" fresh_params H).
Defined.

(** ** Construction of the backbones *)

Section Construction.

Lemma supported_layers_None (layers : Z) :
  ~ In layers [18; 34; 50; 101; 152; 200] ->
  ResNet.supported_layers !! layers = None.
Proof.
  intros H. unfold ResNet.supported_layers. cbn [list_to_map foldr fst snd].
  rewrite !lookup_insert_ne by (intros <-; apply H; simpl; tauto).
  apply lookup_empty.
Qed.

Lemma not_eqb_large_small (m : string) :
  m <> "large" -> m <> "small" ->
  String.eqb m "large" = false /\ String.eqb m "small" = false.
Proof. intros L S. split; now apply String.eqb_neq. Qed.

End Construction.

(** C8. With a scale that is not supported, with a model name that is not
    supported, and with a number of layers that is not supported, the
    constructor of the backbone raises when the only initialisation begun
    is that of the backbone itself: no stem convolution, residual unit or
    block has been constructed. *)
Theorem unsupported_configuration_fails_first :
  (forall (in_channels : Z) (kw : MobileNetV3.kwargs) (log : list string),
      MobileNetV3.in_supported_scale (default 0.5%Q (MobileNetV3.kw_scale kw))
      = false ->
      MobileNetV3.init in_channels kw log
      = (Raise
           (if String.eqb (default "large" (MobileNetV3.kw_model_name kw))
                          "large"
               || String.eqb (default "large" (MobileNetV3.kw_model_name kw))
                             "small"
            then AssertionError "supported scale are {} but input scale is {}"
            else NotImplementedError
                   ("mode[" +:+ default "large" (MobileNetV3.kw_model_name kw)
                    +:+ "_model] is not implemented!")),
         log ++ ["MobileNetV3"]))
  /\ (forall (in_channels : Z) (kw : MobileNetV3.kwargs) (log : list string),
        default "large" (MobileNetV3.kw_model_name kw) <> "large" ->
        default "large" (MobileNetV3.kw_model_name kw) <> "small" ->
        MobileNetV3.init in_channels kw log
        = (Raise (NotImplementedError
                    ("mode[" +:+ default "large" (MobileNetV3.kw_model_name kw)
                     +:+ "_model] is not implemented!")),
           log ++ ["MobileNetV3"]))
  /\ (forall (in_channels layers : Z) (log : list string),
        ~ In layers [18; 34; 50; 101; 152; 200] ->
        ResNet.init in_channels layers log
        = (Raise (AssertionError
                    "supported layers are {} but input layer is {}"),
           log ++ ["ResNet"])).
Proof.
  split; [| split].
  - intros in_channels kw log H.
    unfold MobileNetV3.init, bind, enter, raise, ret.
    destruct (String.eqb (default "large" (MobileNetV3.kw_model_name kw)) "large");
      [rewrite H; reflexivity |].
    destruct (String.eqb (default "large" (MobileNetV3.kw_model_name kw)) "small");
      [rewrite H; reflexivity |].
    reflexivity.
  - intros in_channels kw log L S.
    destruct (not_eqb_large_small _ L S) as [EL ES].
    unfold MobileNetV3.init, bind, enter, raise, ret.
    now rewrite EL, ES.
  - intros in_channels layers log H.
    unfold ResNet.init, bind, enter, raise.
    now rewrite (supported_layers_None _ H).
Qed.

Lemma unsupported_configuration_fails_first_witness :
  (MobileNetV3.in_supported_scale
     (default 0.5%Q (MobileNetV3.kw_scale
                       (MobileNetV3.mkKwargs (Some 0.6%Q) (Some "large"))))
   = false
   /\ MobileNetV3.init 3 (MobileNetV3.mkKwargs (Some 0.6%Q) (Some "large")) []
      = (Raise (AssertionError "supported scale are {} but input scale is {}"),
         [] ++ ["MobileNetV3"]))
  /\ (default "large" (MobileNetV3.kw_model_name
                         (MobileNetV3.mkKwargs (Some 0.5%Q) (Some "huge")))
      <> "large"
      /\ default "large" (MobileNetV3.kw_model_name
                            (MobileNetV3.mkKwargs (Some 0.5%Q) (Some "huge")))
         <> "small"
      /\ MobileNetV3.init 3 (MobileNetV3.mkKwargs (Some 0.5%Q) (Some "huge")) []
         = (Raise (NotImplementedError
                     ("mode[" +:+ default "large"
                                    (MobileNetV3.kw_model_name
                                       (MobileNetV3.mkKwargs (Some 0.5%Q)
                                                             (Some "huge")))
                      +:+ "_model] is not implemented!")),
            [] ++ ["MobileNetV3"]))
  /\ (~ In 19 [18; 34; 50; 101; 152; 200]
      /\ ResNet.init 3 19 []
         = (Raise (AssertionError
                     "supported layers are {} but input layer is {}"),
            [] ++ ["ResNet"])).
Proof.
  destruct unsupported_configuration_fails_first as (S & N & L).
  split; [| split].
  - split; [reflexivity |].
    exact (S 3 (MobileNetV3.mkKwargs (Some 0.6%Q) (Some "large")) []
             eq_refl).
  - assert (A : "huge" <> "large") by discriminate.
    assert (B : "huge" <> "small") by discriminate.
    split; [exact A | split; [exact B |]].
    exact (N 3 (MobileNetV3.mkKwargs (Some 0.5%Q) (Some "huge")) [] A B).
  - assert (A : ~ In 19 [18; 34; 50; 101; 152; 200])
      by (simpl; intros H; repeat destruct H as [H | H]; try discriminate H; exact H).
    split; [exact A | exact (L 3 19 [] A)].
Defined.

(** C7. For every supported scale and both model names the constructor of
    the mobile backbone returns a backbone whose [out_channels] is
    [make_divisible(scale * cls_ch_squeeze)], with [cls_ch_squeeze] 960 for
    "large" and 576 for "small"; scale 0.5 and "large" give 480. *)
Theorem MobileNetV3_out_channels :
  (forall (in_channels : Z) (scale : Q) (model_name : string)
          (log : list string),
      MobileNetV3.in_supported_scale scale = true ->
      model_name = "large" \/ model_name = "small" ->
      exists (net : MobileNetV3.t) (log' : list string),
        MobileNetV3.init in_channels
          (MobileNetV3.mkKwargs (Some scale) (Some model_name)) log
        = (Ok net, log')
        /\ MobileNetV3.cls_ch_squeeze net
           = (if String.eqb model_name "large" then 960 else 576)
        /\ MobileNetV3.make_divisible
             (scale * inject_Z (MobileNetV3.cls_ch_squeeze net)) 8 None
           = Ok (MobileNetV3.out_channels net))
  /\ (forall (in_channels : Z) (log : list string),
      exists (net : MobileNetV3.t) (log' : list string),
        MobileNetV3.init in_channels
          (MobileNetV3.mkKwargs (Some 0.5%Q) (Some "large")) log
        = (Ok net, log')
        /\ MobileNetV3.out_channels net = 480).
Proof.
  split.
  - intros in_channels scale model_name log S [-> | ->];
      unfold MobileNetV3.init;
      cbn [MobileNetV3.kw_scale MobileNetV3.kw_model_name default from_option
           id String.eqb Ascii.eqb Bool.eqb];
      unfold bind at 1 2; unfold enter at 1; unfold ret at 1;
      rewrite S; cbn [negb];
      (eexists; eexists; split; [reflexivity | split; reflexivity]).
  - intros. eexists; eexists; split; [vm_compute; reflexivity | reflexivity].
Qed.

Lemma MobileNetV3_out_channels_witness :
  MobileNetV3.in_supported_scale 0.75%Q = true
  /\ ("small" = "large" \/ "small" = "small")
  /\ exists (net : MobileNetV3.t) (log' : list string),
      MobileNetV3.init 3 (MobileNetV3.mkKwargs (Some 0.75%Q) (Some "small")) []
      = (Ok net, log')
      /\ MobileNetV3.cls_ch_squeeze net
         = (if String.eqb "small" "large" then 960 else 576)
      /\ MobileNetV3.make_divisible
           (0.75 * inject_Z (MobileNetV3.cls_ch_squeeze net)) 8 None
         = Ok (MobileNetV3.out_channels net).
Proof.
  split; [reflexivity |].
  split; [right; reflexivity |].
  apply (proj1 MobileNetV3_out_channels 3 0.75%Q "small" []);
    [reflexivity | right; reflexivity].
Defined.

(** C10. For every supported number of layers the [out_channels] of the
    virtual-depth backbone is 512, the last entry of [num_filters]; at the
    depths 50, 101, 152 and 200 this is so although every block of the
    last stage ends in a projection to 2048 channels. *)
Theorem ResNet_out_channels :
  forall (in_channels layers : Z) (log : list string),
    In layers [18; 34; 50; 101; 152; 200] ->
    exists (net : ResNet.t) (log' : list string) (stage : list ResNet.block),
      ResNet.init in_channels layers log = (Ok net, log')
      /\ ResNet.out_channels net = 512
      /\ last (ResNet.stages net) = Some stage
      /\ Forall (fun b => block_out_channels b
                          = if 50 <=? layers then 2048 else 512) stage.
Proof.
  intros in_channels layers log H. simpl in H.
  destruct H as [<- | [<- | [<- | [<- | [<- | [<- | []]]]]]];
    (eexists; eexists; eexists;
     split; [vm_compute; reflexivity |];
     split; [reflexivity |];
     split; [reflexivity |];
     repeat constructor).
Qed.

Lemma ResNet_out_channels_witness :
  In 50 [18; 34; 50; 101; 152; 200]
  /\ exists (net : ResNet.t) (log' : list string) (stage : list ResNet.block),
      ResNet.init 3 50 [] = (Ok net, log')
      /\ ResNet.out_channels net = 512
      /\ last (ResNet.stages net) = Some stage
      /\ Forall (fun b => block_out_channels b
                          = if 50 <=? 50 then 2048 else 512) stage.
Proof.
  assert (H : In 50 [18; 34; 50; 101; 152; 200]) by (simpl; tauto).
  split; [exact H | exact (ResNet_out_channels 3 50 [] H)].
Defined.

(** * Further properties of the code *)

(** ** Divisibility rounding on binary64 numbers *)

(** X1. On every float, [make_divisible(v)] either returns a multiple of
    8 that is at least 8, or raises the error of [int]: that of a NaN or
    that of an infinity. *)
Theorem make_divisible_binary64_multiple :
  (forall v : float,
      match Binary64.make_divisible v with
      | Ok r => (8 | r) /\ 8 <= r
      | Raise e =>
          e = ValueError "cannot convert float NaN to integer"
          \/ e = OverflowError "cannot convert float infinity to integer"
      end)
  /\ Binary64.make_divisible nan
     = Raise (ValueError "cannot convert float NaN to integer")
  /\ Binary64.make_divisible infinity
     = Raise (OverflowError "cannot convert float infinity to integer")
  /\ Binary64.make_divisible neg_infinity
     = Raise (OverflowError "cannot convert float infinity to integer").
Proof.
  split; [| repeat split; vm_compute; reflexivity].
  intros v. unfold Binary64.make_divisible.
  assert (M : forall i : Z, (8 | Z.max 8 (i / 8 * 8))).
  { intros i. destruct (Z.max_spec 8 (i / 8 * 8)) as [[_ ->] | [_ ->]];
      [exists (i / 8); reflexivity | exists 1; reflexivity]. }
  destruct (Binary64.int (v + 8 / 2)) as [i | e] eqn:E; cbn [rbind].
  - destruct (Binary64.int_lt (Z.max 8 (i / 8 * 8)) (0.9 * v)).
    + split; [apply Z.divide_add_r; [apply M | exists 1; reflexivity] | lia].
    + split; [apply M | lia].
  - unfold Binary64.int in E.
    destruct (Prim2SF (v + 8 / 2)); try discriminate;
      injection E as <-; auto.
Qed.

(** ** Activation primitives, element by element *)

(** X5. The hard-sigmoid of any input, for any slope and offset, lies
    between 0 and 1. *)
Theorem HardSigmoid_range :
  forall (self : HardSigmoid.t) (x : Q),
    (0 <= HardSigmoid.elem self x)%Q /\ (HardSigmoid.elem self x <= 1)%Q.
Proof.
  intros self x. unfold HardSigmoid.elem, threshold.
  set (v := (HardSigmoid.slope self * x + HardSigmoid.offset self)%Q).
  destruct (gtb_spec (- v) (-1)) as [A | A];
    [ destruct (gtb_spec (- - v) 0) as [B | B]
    | destruct (gtb_spec (- -1) 0) as [B | B] ];
    split; lra.
Qed.

(** X6. With a slope that is not negative the hard-sigmoid does not
    decrease. *)
Theorem HardSigmoid_monotone :
  forall (self : HardSigmoid.t) (x y : Q),
    (0 <= HardSigmoid.slope self)%Q ->
    (x <= y)%Q ->
    (HardSigmoid.elem self x <= HardSigmoid.elem self y)%Q.
Proof.
  intros self x y S L. unfold HardSigmoid.elem, threshold.
  assert (M : (HardSigmoid.slope self * x <= HardSigmoid.slope self * y)%Q).
  { rewrite !(Qmult_comm (HardSigmoid.slope self)).
    now apply Qmult_le_compat_r. }
  set (v := (HardSigmoid.slope self * x + HardSigmoid.offset self)%Q).
  set (w := (HardSigmoid.slope self * y + HardSigmoid.offset self)%Q).
  assert (V : (v <= w)%Q) by (unfold v, w; lra).
  destruct (gtb_spec (- v) (-1)) as [A | A];
    [ destruct (gtb_spec (- - v) 0) as [B | B]
    | destruct (gtb_spec (- -1) 0) as [B | B] ];
    (destruct (gtb_spec (- w) (-1)) as [C | C];
     [ destruct (gtb_spec (- - w) 0) as [D | D]
     | destruct (gtb_spec (- -1) 0) as [D | D] ]);
    lra.
Qed.

Lemma HardSigmoid_monotone_witness :
  (0 <= HardSigmoid.slope (HardSigmoid.mk 0.2 0.5))%Q
  /\ (-1 <= 2)%Q
  /\ (HardSigmoid.elem (HardSigmoid.mk 0.2 0.5) (-1)
      <= HardSigmoid.elem (HardSigmoid.mk 0.2 0.5) 2)%Q.
Proof.
  assert (S : (0 <= HardSigmoid.slope (HardSigmoid.mk 0.2 0.5))%Q)
    by (vm_compute; discriminate).
  assert (L : (-1 <= 2)%Q) by (vm_compute; discriminate).
  split; [exact S | split; [exact L |]].
  exact (HardSigmoid_monotone (HardSigmoid.mk 0.2 0.5) (-1) 2 S L).
Defined.

(** ** Import of a foreign checkpoint *)

Section ImportFacts.

Context {A T : Type}.
Variable torch_Tensor : A -> T.
Variable conv_load_state_dict :
  list (string * T) -> M (ConvBNACT.params T) unit.
Variable se_load_state_dict :
  list (string * T) -> M (Checkpoint.SEBlock_params T) unit.

Lemma first_missing_cons (_state : gmap string A) (k : string)
    (ks : list string) :
  Checkpoint.first_missing _state (k :: ks)
  = match _state !! k with
    | None => Some k
    | Some _ => Checkpoint.first_missing _state ks
    end.
Proof. unfold Checkpoint.first_missing. simpl. now destruct (_state !! k). Qed.

Lemma outcome_app (_state : gmap string A) (ks ks' : list string) :
  Checkpoint.outcome _state (ks ++ ks')
  = match Checkpoint.outcome _state ks with
    | Ok _ => Checkpoint.outcome _state ks'
    | Raise e => Raise e
    end.
Proof.
  unfold Checkpoint.outcome.
  induction ks as [| k ks IH]; [reflexivity |].
  rewrite <- app_comm_cons, !first_missing_cons.
  destruct (_state !! k); [exact IH | reflexivity].
Qed.

(** A unit whose first absent key is [k] raises [KeyError(k)] and is not
    written to. *)
Lemma ConvBNACT_import_first_missing (_state : gmap string A) (p k : string)
    (self : ConvBNACT.params T) :
  Checkpoint.first_missing _state (ConvBNACT.required_keys p) = Some k ->
  ConvBNACT.load_3rd_state_dict torch_Tensor conv_load_state_dict
    "paddle" _state p self
  = (Raise (KeyError k), self).
Proof.
  unfold ConvBNACT.required_keys, ConvBNACT.load_3rd_state_dict.
  cbn [String.eqb Ascii.eqb Bool.eqb].
  rewrite !first_missing_cons. unfold bind, getitem, raise, ret.
  destruct (_state !! (p +:+ "_weights")); [| now intros [= <-]].
  destruct (_state !! (p +:+ "_bn_scale")); [| now intros [= <-]].
  destruct (_state !! (p +:+ "_bn_offset")); [| now intros [= <-]].
  destruct (_state !! (p +:+ "_bn_mean")); [| now intros [= <-]].
  destruct (_state !! (p +:+ "_bn_variance")); [| now intros [= <-]].
  discriminate.
Qed.

Lemma ConvBNACT_import_outcome (_state : gmap string A) (p : string)
    (self : ConvBNACT.params T) :
  (forall l s, fst (conv_load_state_dict l s) = Ok tt) ->
  fst (ConvBNACT.load_3rd_state_dict torch_Tensor conv_load_state_dict
         "paddle" _state p self)
  = Checkpoint.outcome _state (ConvBNACT.required_keys p).
Proof.
  intros H.
  unfold Checkpoint.outcome, ConvBNACT.required_keys,
    ConvBNACT.load_3rd_state_dict.
  cbn [String.eqb Ascii.eqb Bool.eqb].
  rewrite !first_missing_cons. unfold bind, getitem, raise, ret.
  destruct (_state !! (p +:+ "_weights")); [| reflexivity].
  destruct (_state !! (p +:+ "_bn_scale")); [| reflexivity].
  destruct (_state !! (p +:+ "_bn_offset")); [| reflexivity].
  destruct (_state !! (p +:+ "_bn_mean")); [| reflexivity].
  destruct (_state !! (p +:+ "_bn_variance")); [| reflexivity].
  apply H.
Qed.

Lemma SEBlock_import_outcome (_state : gmap string A) (p : string)
    (self : Checkpoint.SEBlock_params T) :
  (forall l s, fst (se_load_state_dict l s) = Ok tt) ->
  fst (Checkpoint.SEBlock_load_3rd_state_dict torch_Tensor se_load_state_dict
         "paddle" _state p self)
  = Checkpoint.outcome _state (Checkpoint.SEBlock_keys p).
Proof.
  intros H.
  unfold Checkpoint.outcome, Checkpoint.SEBlock_keys,
    Checkpoint.SEBlock_load_3rd_state_dict.
  cbn [String.eqb Ascii.eqb Bool.eqb].
  rewrite !first_missing_cons. unfold bind, getitem, raise, ret.
  destruct (_state !! (p +:+ "_1_weights")); [| reflexivity].
  destruct (_state !! (p +:+ "_2_weights")); [| reflexivity].
  destruct (_state !! (p +:+ "_1_offset")); [| reflexivity].
  destruct (_state !! (p +:+ "_2_offset")); [| reflexivity].
  apply H.
Qed.

Lemma ResidualUnit_import_outcome (_state : gmap string A) (i : Z)
    (self : Checkpoint.ResidualUnit_params T) :
  (forall l s, fst (conv_load_state_dict l s) = Ok tt) ->
  (forall l s, fst (se_load_state_dict l s) = Ok tt) ->
  fst (Checkpoint.ResidualUnit_load_3rd_state_dict torch_Tensor
         conv_load_state_dict se_load_state_dict "paddle" _state i self)
  = Checkpoint.outcome _state (Checkpoint.ResidualUnit_keys i self).
Proof.
  intros Hc Hs.
  unfold Checkpoint.ResidualUnit_load_3rd_state_dict, Checkpoint.ResidualUnit_keys.
  cbn [String.eqb Ascii.eqb Bool.eqb]. unfold bind, Checkpoint.on.
  rewrite !outcome_app.
  pose proof (ConvBNACT_import_outcome _state
                ("conv" +:+ pretty i +:+ "_expand") (Checkpoint.conv0 self) Hc) as E0.
  destruct (ConvBNACT.load_3rd_state_dict _ _ _ _ ("conv" +:+ pretty i +:+ "_expand") _)
    as [r0 c0].
  cbn [fst] in E0. rewrite <- E0. destruct r0 as [[] | e]; [| reflexivity].
  cbn [Checkpoint.conv0 Checkpoint.conv1 Checkpoint.se Checkpoint.conv2].
  pose proof (ConvBNACT_import_outcome _state
                ("conv" +:+ pretty i +:+ "_depthwise") (Checkpoint.conv1 self) Hc) as E1.
  destruct (ConvBNACT.load_3rd_state_dict _ _ _ _ ("conv" +:+ pretty i +:+ "_depthwise") _)
    as [r1 c1].
  cbn [fst] in E1. rewrite <- E1. destruct r1 as [[] | e]; [| reflexivity].
  cbn [Checkpoint.conv0 Checkpoint.conv1 Checkpoint.se Checkpoint.conv2].
  destruct (Checkpoint.se self) as [p |].
  - pose proof (SEBlock_import_outcome _state
                  ("conv" +:+ pretty i +:+ "_se") p Hs) as E2.
    destruct (Checkpoint.SEBlock_load_3rd_state_dict _ _ _ _ _ _) as [r2 p'].
    cbn [fst] in E2. rewrite <- E2. destruct r2 as [[] | e]; [| reflexivity].
    cbn [Checkpoint.conv0 Checkpoint.conv1 Checkpoint.se Checkpoint.conv2].
    pose proof (ConvBNACT_import_outcome _state
                  ("conv" +:+ pretty i +:+ "_linear") (Checkpoint.conv2 self) Hc) as E3.
    destruct (ConvBNACT.load_3rd_state_dict _ _ _ _ _ _) as [r3 c3].
    exact E3.
  - cbn [Checkpoint.conv0 Checkpoint.conv1 Checkpoint.se Checkpoint.conv2].
    change (Checkpoint.outcome _state []) with (Ok tt).
    pose proof (ConvBNACT_import_outcome _state
                  ("conv" +:+ pretty i +:+ "_linear") (Checkpoint.conv2 self) Hc) as E3.
    destruct (ConvBNACT.load_3rd_state_dict _ _ _ _ _ _) as [r3 c3].
    exact E3.
Qed.

Lemma blocks_import_outcome (_state : gmap string A) (start : Z)
    (us : list (Checkpoint.ResidualUnit_params T)) :
  (forall l s, fst (conv_load_state_dict l s) = Ok tt) ->
  (forall l s, fst (se_load_state_dict l s) = Ok tt) ->
  fst (Checkpoint.for_enumerate
         (fun i => Checkpoint.ResidualUnit_load_3rd_state_dict torch_Tensor
                     conv_load_state_dict se_load_state_dict "paddle" _state i)
         start us)
  = Checkpoint.outcome _state (Checkpoint.blocks_keys start us).
Proof.
  intros Hc Hs. revert start.
  induction us as [| u us IH]; intros start; [reflexivity |].
  cbn [Checkpoint.for_enumerate Checkpoint.blocks_keys].
  rewrite outcome_app.
  pose proof (ResidualUnit_import_outcome _state start u Hc Hs) as E.
  destruct (Checkpoint.ResidualUnit_load_3rd_state_dict _ _ _ _ _ _ _)
    as [r u'].
  cbn [fst] in E. rewrite <- E. destruct r as [[] | e]; [| reflexivity].
  specialize (IH (start + 1)).
  destruct (Checkpoint.for_enumerate _ _ _) as [r' us']. exact IH.
Qed.

End ImportFacts.

(** X7. The import of a unit reads its five keys and no other: on two
    checkpoints that agree on them it does the same. *)
Theorem ConvBNACT_import_reads_five_keys :
  forall (A T : Type) (torch_Tensor : A -> T)
         (load_state_dict : list (string * T) -> M (ConvBNACT.params T) unit)
         (_3rd_name : string) (s1 s2 : gmap string A) (_name_prefix : string)
         (self : ConvBNACT.params T),
    (forall k : string,
        In k (ConvBNACT.required_keys _name_prefix) -> s1 !! k = s2 !! k) ->
    ConvBNACT.load_3rd_state_dict torch_Tensor load_state_dict
      _3rd_name s1 _name_prefix self
    = ConvBNACT.load_3rd_state_dict torch_Tensor load_state_dict
        _3rd_name s2 _name_prefix self.
Proof.
  intros A T tT lsd tag s1 s2 p self H.
  unfold ConvBNACT.load_3rd_state_dict, ConvBNACT.required_keys in *.
  destruct (String.eqb tag "paddle"); [| reflexivity].
  unfold bind, getitem.
  rewrite (H (p +:+ "_weights")) by (simpl; tauto).
  rewrite (H (p +:+ "_bn_scale")) by (simpl; tauto).
  rewrite (H (p +:+ "_bn_offset")) by (simpl; tauto).
  rewrite (H (p +:+ "_bn_mean")) by (simpl; tauto).
  rewrite (H (p +:+ "_bn_variance")) by (simpl; tauto).
  reflexivity.
Qed.

Lemma ConvBNACT_import_reads_five_keys_witness :
  (forall k : string,
      In k (ConvBNACT.required_keys "conv2_expand") ->
      expand_only_checkpoint !! k
      = (<["conv1_weights" := 7]> expand_only_checkpoint) !! k)
  /\ ConvBNACT.load_3rd_state_dict as_is install_state_dict
       "paddle" expand_only_checkpoint "conv2_expand" fresh_params
     = ConvBNACT.load_3rd_state_dict as_is install_state_dict
         "paddle" (<["conv1_weights" := 7]> expand_only_checkpoint)
         "conv2_expand" fresh_params.
Proof.
  assert (H : forall k : string,
             In k (ConvBNACT.required_keys "conv2_expand") ->
             expand_only_checkpoint !! k
             = (<["conv1_weights" := 7]> expand_only_checkpoint) !! k).
  { intros k I. simpl in I.
    destruct I as [<- | [<- | [<- | [<- | [<- | []]]]]];
      vm_compute; reflexivity. }
  split; [exact H |].
  exact (ConvBNACT_import_reads_five_keys Z Z as_is install_state_dict
           "paddle" expand_only_checkpoint _ "conv2_expand" fresh_params H).
Defined.

(** X8. When the five keys are present, the import of a unit hands to
    [load_state_dict] the five tensors, converted and not otherwise
    changed: [_weights] as [conv.weight], [_bn_scale] as [bn.weight],
    [_bn_offset] as [bn.bias], [_bn_mean] as [bn.running_mean] and
    [_bn_variance] as [bn.running_var]. *)
Theorem ConvBNACT_import_key_mapping :
  forall (A T : Type) (torch_Tensor : A -> T)
         (load_state_dict : list (string * T) -> M (ConvBNACT.params T) unit)
         (_state : gmap string A) (_name_prefix : string)
         (self : ConvBNACT.params T) (w s o m v : A),
    _state !! (_name_prefix +:+ "_weights") = Some w ->
    _state !! (_name_prefix +:+ "_bn_scale") = Some s ->
    _state !! (_name_prefix +:+ "_bn_offset") = Some o ->
    _state !! (_name_prefix +:+ "_bn_mean") = Some m ->
    _state !! (_name_prefix +:+ "_bn_variance") = Some v ->
    ConvBNACT.load_3rd_state_dict torch_Tensor load_state_dict
      "paddle" _state _name_prefix self
    = load_state_dict
        [("conv.weight", torch_Tensor w); ("bn.weight", torch_Tensor s);
         ("bn.bias", torch_Tensor o); ("bn.running_mean", torch_Tensor m);
         ("bn.running_var", torch_Tensor v)]
        self.
Proof.
  intros A T tT lsd _state p self w s o m v Hw Hs Ho Hm Hv.
  unfold ConvBNACT.load_3rd_state_dict.
  cbn [String.eqb Ascii.eqb Bool.eqb]. unfold bind, getitem, ret.
  now rewrite Hw, Hs, Ho, Hm, Hv.
Qed.

Lemma ConvBNACT_import_key_mapping_witness :
  expand_only_checkpoint !! ("conv2_expand" +:+ "_weights") = Some 1
  /\ expand_only_checkpoint !! ("conv2_expand" +:+ "_bn_scale") = Some 2
  /\ expand_only_checkpoint !! ("conv2_expand" +:+ "_bn_offset") = Some 3
  /\ expand_only_checkpoint !! ("conv2_expand" +:+ "_bn_mean") = Some 4
  /\ expand_only_checkpoint !! ("conv2_expand" +:+ "_bn_variance") = Some 5
  /\ ConvBNACT.load_3rd_state_dict as_is install_state_dict
       "paddle" expand_only_checkpoint "conv2_expand" fresh_params
     = install_state_dict
         [("conv.weight", as_is 1); ("bn.weight", as_is 2);
          ("bn.bias", as_is 3); ("bn.running_mean", as_is 4);
          ("bn.running_var", as_is 5)]
         fresh_params.
Proof.
  assert (Hw : expand_only_checkpoint !! ("conv2_expand" +:+ "_weights")
               = Some 1) by (vm_compute; reflexivity).
  assert (Hs : expand_only_checkpoint !! ("conv2_expand" +:+ "_bn_scale")
               = Some 2) by (vm_compute; reflexivity).
  assert (Ho : expand_only_checkpoint !! ("conv2_expand" +:+ "_bn_offset")
               = Some 3) by (vm_compute; reflexivity).
  assert (Hm : expand_only_checkpoint !! ("conv2_expand" +:+ "_bn_mean")
               = Some 4) by (vm_compute; reflexivity).
  assert (Hv : expand_only_checkpoint !! ("conv2_expand" +:+ "_bn_variance")
               = Some 5) by (vm_compute; reflexivity).
  repeat (split; [assumption |]).
  exact (ConvBNACT_import_key_mapping Z Z as_is install_state_dict
           expand_only_checkpoint "conv2_expand" fresh_params 1 2 3 4 5
           Hw Hs Ho Hm Hv).
Defined.

(** X9. With a toolkit tag other than ['paddle'] the import of a unit, of
    a squeeze-excite block, of a residual unit and of the backbone returns
    without reading the checkpoint and without writing a parameter. *)
Theorem import_unknown_tag_is_noop :
  forall (A T : Type) (torch_Tensor : A -> T)
         (conv_load_state_dict :
            list (string * T) -> M (ConvBNACT.params T) unit)
         (se_load_state_dict :
            list (string * T) -> M (Checkpoint.SEBlock_params T) unit)
         (_3rd_name : string) (_state : gmap string A),
    _3rd_name <> "paddle" ->
    (forall p c,
        ConvBNACT.load_3rd_state_dict torch_Tensor conv_load_state_dict
          _3rd_name _state p c = (Ok tt, c))
    /\ (forall p b,
          Checkpoint.SEBlock_load_3rd_state_dict torch_Tensor
            se_load_state_dict _3rd_name _state p b = (Ok tt, b))
    /\ (forall i u,
          Checkpoint.ResidualUnit_load_3rd_state_dict torch_Tensor
            conv_load_state_dict se_load_state_dict _3rd_name _state i u
          = (Ok tt, u))
    /\ (forall n,
          Checkpoint.MobileNetV3_load_3rd_state_dict torch_Tensor
            conv_load_state_dict se_load_state_dict _3rd_name _state n
          = (Ok tt, n)).
Proof.
  intros A T tT clsd slsd tag _state N.
  apply String.eqb_neq in N.
  unfold ConvBNACT.load_3rd_state_dict,
    Checkpoint.SEBlock_load_3rd_state_dict,
    Checkpoint.ResidualUnit_load_3rd_state_dict,
    Checkpoint.MobileNetV3_load_3rd_state_dict.
  rewrite N. repeat split.
Qed.

Lemma import_unknown_tag_is_noop_witness :
  "mxnet" <> "paddle"
  /\ (forall p c,
        ConvBNACT.load_3rd_state_dict as_is install_state_dict
          "mxnet" expand_only_checkpoint p c = (Ok tt, c))
  /\ (forall p b,
        Checkpoint.SEBlock_load_3rd_state_dict as_is accept_se_state_dict
          "mxnet" expand_only_checkpoint p b = (Ok tt, b))
  /\ (forall i u,
        Checkpoint.ResidualUnit_load_3rd_state_dict as_is install_state_dict
          accept_se_state_dict "mxnet" expand_only_checkpoint i u
        = (Ok tt, u))
  /\ (forall n,
        Checkpoint.MobileNetV3_load_3rd_state_dict as_is install_state_dict
          accept_se_state_dict "mxnet" expand_only_checkpoint n
        = (Ok tt, n)).
Proof.
  assert (N : "mxnet" <> "paddle") by discriminate.
  split; [exact N |].
  exact (import_unknown_tag_is_noop Z Z as_is install_state_dict
           accept_se_state_dict "mxnet" expand_only_checkpoint N).
Defined.

(** X10. With tag ['paddle'], a squeeze-excite block whose first absent
    key, in the order [_1_weights], [_2_weights], [_1_offset],
    [_2_offset], is [k] raises [KeyError(k)] and is not written to. *)
Theorem SEBlock_import_missing_key :
  forall (A T : Type) (torch_Tensor : A -> T)
         (load_state_dict :
            list (string * T) -> M (Checkpoint.SEBlock_params T) unit)
         (_state : gmap string A) (_name_prefix k : string)
         (self : Checkpoint.SEBlock_params T),
    Checkpoint.first_missing _state (Checkpoint.SEBlock_keys _name_prefix)
    = Some k ->
    Checkpoint.SEBlock_load_3rd_state_dict torch_Tensor load_state_dict
      "paddle" _state _name_prefix self
    = (Raise (KeyError k), self).
Proof.
  intros A T tT lsd _state p k self.
  unfold Checkpoint.SEBlock_keys, Checkpoint.SEBlock_load_3rd_state_dict.
  cbn [String.eqb Ascii.eqb Bool.eqb].
  rewrite !first_missing_cons. unfold bind, getitem, raise, ret.
  destruct (_state !! (p +:+ "_1_weights")); [| now intros [= <-]].
  destruct (_state !! (p +:+ "_2_weights")); [| now intros [= <-]].
  destruct (_state !! (p +:+ "_1_offset")); [| now intros [= <-]].
  destruct (_state !! (p +:+ "_2_offset")); [| now intros [= <-]].
  discriminate.
Qed.

Lemma SEBlock_import_missing_key_witness :
  Checkpoint.first_missing expand_only_checkpoint
    (Checkpoint.SEBlock_keys "conv2_se")
  = Some "conv2_se_1_weights"
  /\ Checkpoint.SEBlock_load_3rd_state_dict as_is accept_se_state_dict
       "paddle" expand_only_checkpoint "conv2_se"
       (Checkpoint.mkSEBlock 0 0 0 0)
     = (Raise (KeyError "conv2_se_1_weights"), Checkpoint.mkSEBlock 0 0 0 0).
Proof.
  assert (H : Checkpoint.first_missing expand_only_checkpoint
                (Checkpoint.SEBlock_keys "conv2_se")
              = Some "conv2_se_1_weights") by (vm_compute; reflexivity).
  split; [exact H |].
  exact (SEBlock_import_missing_key Z Z as_is accept_se_state_dict
           expand_only_checkpoint "conv2_se" "conv2_se_1_weights"
           (Checkpoint.mkSEBlock 0 0 0 0) H).
Defined.

(** X11. The import of a residual unit is not all or nothing: when the
    import of its expand convolution has returned and a key of its
    depthwise convolution is absent, the unit raises the [KeyError] of that
    key and keeps what the import of the expand convolution wrote. *)
Theorem ResidualUnit_import_partial :
  forall (A T : Type) (torch_Tensor : A -> T)
         (conv_load_state_dict :
            list (string * T) -> M (ConvBNACT.params T) unit)
         (se_load_state_dict :
            list (string * T) -> M (Checkpoint.SEBlock_params T) unit)
         (_state : gmap string A) (_convolution_index : Z) (k : string)
         (self : Checkpoint.ResidualUnit_params T)
         (written : ConvBNACT.params T),
    ConvBNACT.load_3rd_state_dict torch_Tensor conv_load_state_dict
      "paddle" _state ("conv" +:+ pretty _convolution_index +:+ "_expand")
      (Checkpoint.conv0 self)
    = (Ok tt, written) ->
    Checkpoint.first_missing _state
      (ConvBNACT.required_keys
         ("conv" +:+ pretty _convolution_index +:+ "_depthwise"))
    = Some k ->
    Checkpoint.ResidualUnit_load_3rd_state_dict torch_Tensor
      conv_load_state_dict se_load_state_dict "paddle" _state
      _convolution_index self
    = (Raise (KeyError k),
       Checkpoint.mkResidualUnit written (Checkpoint.conv1 self)
         (Checkpoint.se self) (Checkpoint.conv2 self)).
Proof.
  intros A T tT clsd slsd _state i k self written E0 M.
  unfold Checkpoint.ResidualUnit_load_3rd_state_dict.
  cbn [String.eqb Ascii.eqb Bool.eqb]. unfold bind at 1. unfold Checkpoint.on at 1.
  rewrite E0. unfold bind at 1. unfold Checkpoint.on at 1.
  cbn [Checkpoint.conv0 Checkpoint.conv1 Checkpoint.se Checkpoint.conv2].
  now rewrite (ConvBNACT_import_first_missing tT clsd _state _ k _ M).
Qed.

Lemma ResidualUnit_import_partial_witness :
  ConvBNACT.load_3rd_state_dict as_is install_state_dict
    "paddle" expand_only_checkpoint ("conv" +:+ pretty 2 +:+ "_expand")
    (Checkpoint.conv0 fresh_unit)
  = (Ok tt, ConvBNACT.mkParams 1 2 3 4 5)
  /\ Checkpoint.first_missing expand_only_checkpoint
       (ConvBNACT.required_keys ("conv" +:+ pretty 2 +:+ "_depthwise"))
     = Some "conv2_depthwise_weights"
  /\ Checkpoint.ResidualUnit_load_3rd_state_dict as_is install_state_dict
       accept_se_state_dict "paddle" expand_only_checkpoint 2 fresh_unit
     = (Raise (KeyError "conv2_depthwise_weights"),
        Checkpoint.mkResidualUnit (ConvBNACT.mkParams 1 2 3 4 5)
          (Checkpoint.conv1 fresh_unit) (Checkpoint.se fresh_unit)
          (Checkpoint.conv2 fresh_unit)).
Proof.
  assert (E : ConvBNACT.load_3rd_state_dict as_is install_state_dict
                "paddle" expand_only_checkpoint
                ("conv" +:+ pretty 2 +:+ "_expand")
                (Checkpoint.conv0 fresh_unit)
              = (Ok tt, ConvBNACT.mkParams 1 2 3 4 5))
    by (vm_compute; reflexivity).
  assert (M : Checkpoint.first_missing expand_only_checkpoint
                (ConvBNACT.required_keys
                   ("conv" +:+ pretty 2 +:+ "_depthwise"))
              = Some "conv2_depthwise_weights") by (vm_compute; reflexivity).
  split; [exact E | split; [exact M |]].
  exact (ResidualUnit_import_partial Z Z as_is install_state_dict
           accept_se_state_dict expand_only_checkpoint 2
           "conv2_depthwise_weights" fresh_unit
           (ConvBNACT.mkParams 1 2 3 4 5) E M).
Defined.

(** X12. When the two [load_state_dict] accept what they are given, the
    import of the backbone with tag ['paddle'] returns if the checkpoint
    holds every key of [conv1], of the blocks numbered from 2 in their
    order, and of [conv_last]; otherwise it raises the [KeyError] of the
    first of these keys, in the order they are read, that is absent. *)
Theorem MobileNetV3_import_outcome :
  forall (A T : Type) (torch_Tensor : A -> T)
         (conv_load_state_dict :
            list (string * T) -> M (ConvBNACT.params T) unit)
         (se_load_state_dict :
            list (string * T) -> M (Checkpoint.SEBlock_params T) unit)
         (_state : gmap string A) (self : Checkpoint.MobileNetV3_params T),
    (forall l s, fst (conv_load_state_dict l s) = Ok tt) ->
    (forall l s, fst (se_load_state_dict l s) = Ok tt) ->
    fst (Checkpoint.MobileNetV3_load_3rd_state_dict torch_Tensor
           conv_load_state_dict se_load_state_dict "paddle" _state self)
    = match Checkpoint.first_missing _state (Checkpoint.MobileNetV3_keys self)
      with
      | Some k => Raise (KeyError k)
      | None => Ok tt
      end.
Proof.
  intros A T tT clsd slsd _state self Hc Hs.
  change (fst (Checkpoint.MobileNetV3_load_3rd_state_dict tT clsd slsd
                 "paddle" _state self)
          = Checkpoint.outcome _state (Checkpoint.MobileNetV3_keys self)).
  unfold Checkpoint.MobileNetV3_load_3rd_state_dict, Checkpoint.MobileNetV3_keys.
  cbn [String.eqb Ascii.eqb Bool.eqb]. unfold bind, Checkpoint.on.
  rewrite !outcome_app.
  pose proof (ConvBNACT_import_outcome tT clsd _state "conv1"
                (Checkpoint.stem self) Hc) as E0.
  destruct (ConvBNACT.load_3rd_state_dict _ _ _ _ "conv1" _) as [r0 c0].
  cbn [fst] in E0. rewrite <- E0. destruct r0 as [[] | e]; [| reflexivity].
  cbn [Checkpoint.stem Checkpoint.block_list Checkpoint.head].
  pose proof (blocks_import_outcome tT clsd slsd _state 2
                (Checkpoint.block_list self) Hc Hs) as E1.
  destruct (Checkpoint.for_enumerate _ _ _) as [r1 us].
  cbn [fst] in E1. rewrite <- E1. destruct r1 as [[] | e]; [| reflexivity].
  cbn [Checkpoint.stem Checkpoint.block_list Checkpoint.head].
  pose proof (ConvBNACT_import_outcome tT clsd _state "conv_last"
                (Checkpoint.head self) Hc) as E2.
  destruct (ConvBNACT.load_3rd_state_dict _ _ _ _ _ _) as [r2 c2].
  exact E2.
Qed.

Lemma MobileNetV3_import_outcome_witness :
  (forall l s, fst (install_state_dict l s) = Ok tt)
  /\ (forall l s, fst (accept_se_state_dict l s) = Ok tt)
  /\ fst (Checkpoint.MobileNetV3_load_3rd_state_dict as_is
            install_state_dict accept_se_state_dict "paddle"
            expand_only_checkpoint fresh_backbone)
     = match Checkpoint.first_missing expand_only_checkpoint
               (Checkpoint.MobileNetV3_keys fresh_backbone)
       with
       | Some k => Raise (KeyError k)
       | None => Ok tt
       end.
Proof.
  assert (Hc : forall l s, fst (install_state_dict l s) = Ok tt)
    by reflexivity.
  assert (Hs : forall l s, fst (accept_se_state_dict l s) = Ok tt)
    by reflexivity.
  split; [exact Hc | split; [exact Hs |]].
  exact (MobileNetV3_import_outcome Z Z as_is install_state_dict
           accept_se_state_dict expand_only_checkpoint fresh_backbone Hc Hs).
Defined.

(** X13. For every supported scale and both model names, the keys the
    import of the constructed backbone reads are pairwise distinct: 267 of
    them for "large" and 211 for "small". *)
Theorem MobileNetV3_import_keys_distinct :
  forall (in_channels : Z) (scale : Q) (model_name : string)
         (log : list string),
    MobileNetV3.in_supported_scale scale = true ->
    model_name = "large" \/ model_name = "small" ->
    exists (net : MobileNetV3.t) (log' : list string),
      MobileNetV3.init in_channels
        (MobileNetV3.mkKwargs (Some scale) (Some model_name)) log
      = (Ok net, log')
      /\ NoDup (Checkpoint.MobileNetV3_keys (Checkpoint.uniform_params tt net))
      /\ length (Checkpoint.MobileNetV3_keys (Checkpoint.uniform_params tt net))
         = (if String.eqb model_name "large" then 267 else 211)%nat.
Proof.
  intros in_channels scale model_name log S [-> | ->];
    unfold MobileNetV3.init;
    cbn [MobileNetV3.kw_scale MobileNetV3.kw_model_name default from_option
         id String.eqb Ascii.eqb Bool.eqb];
    unfold bind at 1 2; unfold enter at 1; unfold ret at 1;
    rewrite S; cbn [negb];
    (eexists; eexists; split; [reflexivity |]);
    (split; [apply (bool_decide_unpack _); vm_compute; reflexivity
            | vm_compute; reflexivity]).
Qed.

Lemma MobileNetV3_import_keys_distinct_witness :
  MobileNetV3.in_supported_scale 0.5%Q = true
  /\ ("large" = "large" \/ "large" = "small")
  /\ exists (net : MobileNetV3.t) (log' : list string),
      MobileNetV3.init 3 (MobileNetV3.mkKwargs (Some 0.5%Q) (Some "large")) []
      = (Ok net, log')
      /\ NoDup (Checkpoint.MobileNetV3_keys (Checkpoint.uniform_params tt net))
      /\ length (Checkpoint.MobileNetV3_keys (Checkpoint.uniform_params tt net))
         = (if String.eqb "large" "large" then 267 else 211)%nat.
Proof.
  assert (S : MobileNetV3.in_supported_scale 0.5%Q = true) by reflexivity.
  assert (N : "large" = "large" \/ "large" = "small") by (left; reflexivity).
  split; [exact S | split; [exact N |]].
  exact (MobileNetV3_import_keys_distinct 3 0.5%Q "large" [] S N).
Defined.

(** ** Blocks and stages of the virtual-depth backbone *)

Section PartialFacts.

Context {K : Partial.Toolkit}.

Lemma Partial_call_forward {Self : Type}
    (f : Self -> Partial.tensor -> result Partial.tensor) (self : Self)
    (x : Partial.tensor) :
  Partial.call [("forward", f)] self x = f self x.
Proof. reflexivity. Qed.

(** A backbone whose first block is a bottleneck block raises at that
    block, if not before. *)
Lemma Partial_forward_bottleneck_first (net : ResNet.t)
    (b : BottleneckBlock.t) (x : Partial.tensor) :
  first_block net = Some (ResNet.Bottleneck b) ->
  Partial.ResNet_forward net x
  = rbind (Partial.stem net x) (fun x =>
    rbind (Partial.max_pool2d (ResNet.pool1 net) x) (fun _ =>
    Raise (NotImplementedError "forward"))).
Proof.
  unfold first_block, Partial.ResNet_forward. intros F.
  destruct (ResNet.stages net) as [| [| b0 stage] stages]; try discriminate.
  injection F as ->.
  destruct (Partial.stem net x) as [t | e]; [| reflexivity]. cbn [rbind].
  destruct (Partial.max_pool2d (ResNet.pool1 net) t) as [u | e];
    reflexivity.
Qed.

End PartialFacts.

(** X14. Whatever the toolkit raises or returns, a basic block that is
    not the first computes [relu(conv1(conv0(x)) + s)], raising what the
    convolutions or the sum raise, where [s] is the input [x] itself,
    with no call of the toolkit, when [in_channels == out_channels] and
    [stride[0] == 1], and the pool-then-stride projection of [x]
    otherwise. *)
Theorem BasicBlock_forward_formula :
  forall (K : Partial.Toolkit) (in_channels out_channels : Z)
         (stride : Z * Z) (log : list string),
  exists (b : BasicBlock.t) (log' : list string),
    BasicBlock.init in_channels out_channels stride false log = (Ok b, log')
    /\ forall x : Partial.tensor,
        Partial.block_call (ResNet.Basic b) x
        = rbind (Partial.ConvBNACT_forward (BasicBlock.conv0 b) x) (fun y =>
          rbind (Partial.ConvBNACT_forward (BasicBlock.conv1 b) y) (fun y =>
          rbind (if (in_channels =? out_channels) && (fst stride =? 1)
                 then Ok x
                 else Partial.ConvBNACTNew_forward
                        (projection_pooled in_channels out_channels stride)
                        x) (fun s =>
          rbind (Partial.add y s) (fun y =>
          Ok (Partial.relu_ y))))).
Proof.
  intros.
  destruct (ShurtCut_init_conv in_channels out_channels stride false
              (((((((((log ++ ["BasicBlock"]) ++ ["ConvBNACT"]) ++ ["Conv2d"])
                    ++ ["BatchNorm2d"]) ++ ["ReLU"]) ++ ["ConvBNACT"])
                 ++ ["Conv2d"]) ++ ["BatchNorm2d"]))) as [log' E].
  eexists; eexists. split.
  - unfold BasicBlock.init. unfold bind at 1 2 3. cbn -[ShurtCut.init].
    unfold bind at 1. cbn -[ShurtCut.init].
    rewrite E. reflexivity.
  - intros x. cbn [Partial.block_call].
    unfold Partial.BasicBlock_methods. rewrite Partial_call_forward.
    unfold Partial.BasicBlock_forward, Partial.ShurtCut_forward.
    cbn [BasicBlock.shortcut BasicBlock.conv0 BasicBlock.conv1
         BasicBlock.relu ShurtCut.conv].
    destruct (in_channels =? out_channels), (fst stride =? 1); reflexivity.
Qed.

Lemma supported_layers_cases (layers : Z) (e : list Z * ResNet.block_class) :
  ResNet.supported_layers !! layers = Some e ->
  In layers [18; 34; 50; 101; 152; 200].
Proof.
  intros H.
  destruct (in_dec Z.eq_dec layers [18; 34; 50; 101; 152; 200]) as [I | N];
    [exact I |].
  rewrite (supported_layers_None _ N) in H. discriminate.
Qed.

(** X15. At the depths 50, 101, 152 and 200 the forward pass of the
    virtual-depth backbone never returns a tensor: it raises what the stem
    or the first pool raises and, on an input they accept,
    [NotImplementedError] at the first block. *)
Theorem ResNet_forward_never_returns :
  forall (K : Partial.Toolkit) (in_channels layers : Z) (log : list string),
    In layers [50; 101; 152; 200] ->
    exists (net : ResNet.t) (log' : list string),
      ResNet.init in_channels layers log = (Ok net, log')
      /\ forall x : Partial.tensor,
          Partial.ResNet_forward net x
          = rbind (Partial.stem net x) (fun x =>
            rbind (Partial.max_pool2d (ResNet.pool1 net) x) (fun _ =>
            Raise (NotImplementedError "forward")))
          /\ forall y : Partial.tensor,
              Partial.ResNet_forward net x <> Ok y.
Proof.
  intros K in_channels layers log H. simpl in H.
  destruct H as [<- | [<- | [<- | [<- | []]]]];
    (eexists; eexists; split; [vm_compute; reflexivity |]);
    intros x;
    (assert (E : forall net b,
                first_block net = Some (ResNet.Bottleneck b) ->
                Partial.ResNet_forward net x
                = rbind (Partial.stem net x) (fun x =>
                  rbind (Partial.max_pool2d (ResNet.pool1 net) x) (fun _ =>
                  Raise (NotImplementedError "forward"))))
       by (intros net b F; exact (Partial_forward_bottleneck_first net b x F)));
    (split; [eapply E; reflexivity |]);
    intros y; (erewrite E by reflexivity);
    match goal with
    | |- rbind ?a _ <> _ => destruct a as [t | e]; [| discriminate]
    end;
    cbn [rbind];
    match goal with
    | |- rbind ?a _ <> _ => destruct a as [u | e]; discriminate
    end.
Qed.

Lemma ResNet_forward_never_returns_witness :
  In 50 [50; 101; 152; 200]
  /\ exists (net : ResNet.t) (log' : list string),
      ResNet.init 3 50 [] = (Ok net, log')
      /\ forall x : @Partial.tensor toy_toolkit,
          Partial.ResNet_forward net x
          = rbind (Partial.stem net x) (fun x =>
            rbind (Partial.max_pool2d (ResNet.pool1 net) x) (fun _ =>
            Raise (NotImplementedError "forward")))
          /\ forall y : @Partial.tensor toy_toolkit,
              Partial.ResNet_forward net x <> Ok y.
Proof.
  assert (H : In 50 [50; 101; 152; 200]) by (simpl; tauto).
  split; [exact H | exact (ResNet_forward_never_returns toy_toolkit 3 50 [] H)].
Defined.

(** X16. In the backbone of every supported depth, stage [s] has
    [depth[s]] blocks; the first block of every stage but the first has
    stride (2, 1) and every other block stride (1, 1), so that no block
    reduces the width. *)
Theorem ResNet_stage_strides :
  forall (in_channels layers : Z) (log : list string) (depth : list Z)
         (block_class : ResNet.block_class),
    ResNet.supported_layers !! layers = Some (depth, block_class) ->
    exists (net : ResNet.t) (log' : list string),
      ResNet.init in_channels layers log = (Ok net, log')
      /\ map (fun stage => Z.of_nat (length stage)) (ResNet.stages net)
         = depth
      /\ map (map block_stride) (ResNet.stages net)
         = stage_strides true depth.
Proof.
  intros in_channels layers log depth block_class H.
  pose proof (supported_layers_cases _ _ H) as I. simpl in I.
  destruct I as [<- | [<- | [<- | [<- | [<- | [<- | []]]]]]];
    vm_compute in H; injection H as <- <-;
    (eexists; eexists; split; [vm_compute; reflexivity |]);
    split; vm_compute; reflexivity.
Qed.

Lemma ResNet_stage_strides_witness :
  ResNet.supported_layers !! 34 = Some ([3; 4; 6; 3], ResNet.BasicBlock_)
  /\ exists (net : ResNet.t) (log' : list string),
      ResNet.init 3 34 [] = (Ok net, log')
      /\ map (fun stage => Z.of_nat (length stage)) (ResNet.stages net)
         = [3; 4; 6; 3]
      /\ map (map block_stride) (ResNet.stages net)
         = stage_strides true [3; 4; 6; 3].
Proof.
  assert (H : ResNet.supported_layers !! 34
              = Some ([3; 4; 6; 3], ResNet.BasicBlock_))
    by (vm_compute; reflexivity).
  split; [exact H |].
  exact (ResNet_stage_strides 3 34 [] [3; 4; 6; 3] ResNet.BasicBlock_ H).
Defined.

(** X17. At the depths 18 and 34 every block takes the channels the block
    before it produces, 64 for the first.  At the depths 50, 101, 152 and
    200 it does not: the first block produces 256 channels and the second
    is built for 64. *)
Theorem ResNet_channel_chain :
  forall (in_channels layers : Z) (log : list string),
    In layers [18; 34; 50; 101; 152; 200] ->
    exists (net : ResNet.t) (log' : list string),
      ResNet.init in_channels layers log = (Ok net, log')
      /\ if 50 <=? layers
         then exists (b1 b2 : ResNet.block) (rest : list ResNet.block),
             concat (ResNet.stages net) = b1 :: b2 :: rest
             /\ block_in_channels b1 = 64
             /\ block_out_channels b1 = 256
             /\ block_in_channels b2 = 64
         else blocks_chained 64 (concat (ResNet.stages net)).
Proof.
  intros in_channels layers log H. simpl in H.
  destruct H as [<- | [<- | [<- | [<- | [<- | [<- | []]]]]]];
    (eexists; eexists; split; [vm_compute; reflexivity |]);
    cbn [Z.leb Z.compare Pos.compare Pos.compare_cont];
    first [ eexists; eexists; eexists; split; [vm_compute; reflexivity |];
            repeat split
          | vm_compute; repeat split ].
Qed.

Lemma ResNet_channel_chain_witness :
  In 101 [18; 34; 50; 101; 152; 200]
  /\ exists (net : ResNet.t) (log' : list string),
      ResNet.init 3 101 [] = (Ok net, log')
      /\ if 50 <=? 101
         then exists (b1 b2 : ResNet.block) (rest : list ResNet.block),
             concat (ResNet.stages net) = b1 :: b2 :: rest
             /\ block_in_channels b1 = 64
             /\ block_out_channels b1 = 256
             /\ block_in_channels b2 = 64
         else blocks_chained 64 (concat (ResNet.stages net)).
Proof.
  assert (H : In 101 [18; 34; 50; 101; 152; 200]) by (simpl; tauto).
  split; [exact H | exact (ResNet_channel_chain 3 101 [] H)].
Defined.

(** X19. At the depths 18 and 34 the shortcut of the first block is the
    direct-stride projection, that of the first block of every later stage
    the pool-then-stride projection, and every other shortcut the
    identity.  At the depths 50, 101, 152 and 200 no shortcut is the
    identity. *)
Theorem ResNet_shortcut_layout :
  forall (in_channels layers : Z) (log : list string) (depth : list Z)
         (block_class : ResNet.block_class),
    ResNet.supported_layers !! layers = Some (depth, block_class) ->
    exists (net : ResNet.t) (log' : list string),
      ResNet.init in_channels layers log = (Ok net, log')
      /\ match block_class with
         | ResNet.BasicBlock_ =>
             map (map shortcut_kind) (ResNet.stages net)
             = shortcut_layout true depth
         | ResNet.BottleneckBlock_ =>
             forallb (forallb (fun b =>
                                 negb (kind_eqb (shortcut_kind b) Identity)))
                     (ResNet.stages net) = true
         end.
Proof.
  intros in_channels layers log depth block_class H.
  pose proof (supported_layers_cases _ _ H) as I. simpl in I.
  destruct I as [<- | [<- | [<- | [<- | [<- | [<- | []]]]]]];
    vm_compute in H; injection H as <- <-;
    (eexists; eexists; split; [vm_compute; reflexivity |]);
    vm_compute; reflexivity.
Qed.

Lemma ResNet_shortcut_layout_witness :
  ResNet.supported_layers !! 18 = Some ([2; 2; 2; 2], ResNet.BasicBlock_)
  /\ exists (net : ResNet.t) (log' : list string),
      ResNet.init 3 18 [] = (Ok net, log')
      /\ map (map shortcut_kind) (ResNet.stages net)
         = shortcut_layout true [2; 2; 2; 2].
Proof.
  assert (H : ResNet.supported_layers !! 18
              = Some ([2; 2; 2; 2], ResNet.BasicBlock_))
    by (vm_compute; reflexivity).
  split; [exact H |].
  exact (ResNet_shortcut_layout 3 18 [] [2; 2; 2; 2] ResNet.BasicBlock_ H).
Defined.

(** ** Channels of the mobile backbone *)

(** X18. For every supported scale and both model names the channels of
    the constructed backbone fit: the stem takes [in_channels], every
    residual unit takes the channels the module before it produces and is
    consistent inside, the head convolution takes the channels of the last
    unit and produces [out_channels]. *)
Theorem MobileNetV3_channel_chain :
  forall (in_channels : Z) (scale : Q) (model_name : string)
         (log : list string),
    MobileNetV3.in_supported_scale scale = true ->
    model_name = "large" \/ model_name = "small" ->
    exists (net : MobileNetV3.t) (log' : list string),
      MobileNetV3.init in_channels
        (MobileNetV3.mkKwargs (Some scale) (Some model_name)) log
      = (Ok net, log')
      /\ c_in_channels (ConvBNACT.conv (MobileNetV3.conv1 net)) = in_channels
      /\ units_chained
           (c_out_channels (ConvBNACT.conv (MobileNetV3.conv1 net)))
           (MobileNetV3.block_list net)
           (c_in_channels (ConvBNACT.conv (MobileNetV3.conv2 net)))
      /\ c_out_channels (ConvBNACT.conv (MobileNetV3.conv2 net))
         = MobileNetV3.out_channels net.
Proof.
  intros in_channels scale model_name log S [-> | ->];
    unfold MobileNetV3.init;
    cbn [MobileNetV3.kw_scale MobileNetV3.kw_model_name default from_option
         id String.eqb Ascii.eqb Bool.eqb];
    unfold bind at 1 2; unfold enter at 1; unfold ret at 1;
    rewrite S; cbn [negb];
    (eexists; eexists; split; [reflexivity |]);
    (split; [reflexivity |]);
    (split; [| reflexivity]);
    cbn [units_chained MobileNetV3.block_list];
    unfold unit_consistent;
    repeat split.
Qed.

Lemma MobileNetV3_channel_chain_witness :
  MobileNetV3.in_supported_scale 1.25%Q = true
  /\ ("small" = "large" \/ "small" = "small")
  /\ exists (net : MobileNetV3.t) (log' : list string),
      MobileNetV3.init 3 (MobileNetV3.mkKwargs (Some 1.25%Q) (Some "small")) []
      = (Ok net, log')
      /\ c_in_channels (ConvBNACT.conv (MobileNetV3.conv1 net)) = 3
      /\ units_chained
           (c_out_channels (ConvBNACT.conv (MobileNetV3.conv1 net)))
           (MobileNetV3.block_list net)
           (c_in_channels (ConvBNACT.conv (MobileNetV3.conv2 net)))
      /\ c_out_channels (ConvBNACT.conv (MobileNetV3.conv2 net))
         = MobileNetV3.out_channels net.
Proof.
  assert (S : MobileNetV3.in_supported_scale 1.25%Q = true) by reflexivity.
  assert (N : "small" = "large" \/ "small" = "small") by (right; reflexivity).
  split; [exact S | split; [exact N |]].
  exact (MobileNetV3_channel_chain 3 1.25%Q "small" [] S N).
Defined.
